(** * amazon-test.ts: ChromeDriver / WebdriverIO run, its locator loop and its cleanup

    A shallow embedding of [amazon-test.ts].  The script is one asynchronous
    control flow that talks to three outside parties: the [chromedriver]
    package (start), Node's [process] (kill, exit) and a WebdriverIO browser
    session (url, pause, $, execute, element queries, deleteSession).

    - The outside world is an abstract state [W] with one transition per
      external call (class [Env]); a call either returns or throws.
    - The script is written in a small monad: explicit state (the world and
      the script's mutable variables), JavaScript completions ([Normal] or
      [Throw]) and the list of observable events the computation produced,
      in order.
    - [try/catch], [try/finally] and [for ... of] with [break]/[continue]
      are combinators with the semantics of the language. *)

From Stdlib Require Import List String ZArith Bool Lia.
Import ListNotations.
Open Scope string_scope.
Open Scope list_scope.
Open Scope Z_scope.

(** ** Values of the script *)

(** A thrown [Error] object, identified by its message. *)
Inductive JsError : Type :=
| Error (message : string).

(** The child process returned by chromedriver's [start]; only [pid] is read. *)
Record ChildProcess : Type := mkChildProcess { pid : Z }.

(** A WebdriverIO browser object, identified by its session. *)
Inductive Browser : Type :=
| BrowserSession (sessionId : string).

(** A WebdriverIO element object (what [browser.$] resolves to). *)
Inductive Element : Type :=
| ElementRef (elementId : string).

(** [let options: RemoteOptions = { ... }] (lines 51-67). *)
Record RemoteOptions : Type := mkRemoteOptions {
  hostname : string;
  port : Z;
  path : string;
  browserName : string;
  chromeArgs : list string;
  logLevel : string;
  baseUrl : string;
  waitforTimeout : Z;
  connectionRetryTimeout : Z;
  connectionRetryCount : Z
}.

Definition options : RemoteOptions :=
  {| hostname := "localhost";
     port := 9515;
     path := "/";
     browserName := "chrome";
     chromeArgs := ["--start-maximized"];
     logLevel := "info";
     baseUrl := "https://www.amazon.com";
     waitforTimeout := 10000;
     connectionRetryTimeout := 120000;
     connectionRetryCount := 3 |}.

(** Completion of a statement or of an awaited call. *)
Inductive Completion (A : Type) : Type :=
| Normal (a : A)
| Throw (e : JsError).
Arguments Normal {A} a.
Arguments Throw {A} e.

(** ** Observable events *)

(** The external calls the script makes. *)
Inductive Call : Type :=
| CStart (args : list string)                         (* chromedriver start(args) *)
| CSetTimeout (ms : Z)                                (* new Promise(r => setTimeout(r, ms)) *)
| CKill (p : Z)                                       (* process.kill(pid) *)
| CRemote (o : RemoteOptions)                         (* remote(options) *)
| CUrl (b : Browser) (url : string)                   (* browser.url(url) *)
| CPause (b : Browser) (ms : Z)                       (* browser.pause(ms) *)
| CQuery (b : Browser) (selector : string)            (* browser.$(selector) *)
| CExecuteScroll (b : Browser) (el : Element)         (* browser.execute(scrollIntoView, el) *)
| CDeleteSession (b : Browser)                        (* browser.deleteSession() *)
| CIsExisting (el : Element)                          (* el.isExisting() *)
| CWaitForExist (el : Element) (timeout : Z)          (* el.waitForExist({ timeout }) *)
| CIsDisplayed (el : Element)                         (* el.isDisplayed() *)
| CGetAttribute (el : Element) (name : string).       (* el.getAttribute(name) *)

(** What a call answered, as recorded in the trace. *)
Inductive Value : Type :=
| VUndefined
| VNull
| VBool (b : bool)
| VString (s : string)
| VProcess (p : ChildProcess)
| VBrowser (b : Browser)
| VElement (el : Element).

Inductive Reply : Type :=
| Returned (v : Value)
| Threw (e : JsError).

Inductive Event : Type :=
| Invoke (fn : string)                 (* entry into one of the script's functions *)
| Log (msg : string)                   (* console.log(msg) *)
| LogError (msg : string) (e : JsError) (* console.error(msg, e) *)
| Called (c : Call) (r : Reply)        (* an external call and its answer *)
| Exit (code : Z).                     (* process.exit(code) *)

(** ** The outside world *)

Class Env (W : Type) : Type := {
  chromedriver_start : list string -> W -> Completion ChildProcess * W;
  timer_elapse : Z -> W -> W;
  process_kill : Z -> W -> Completion unit * W;
  wdio_remote : RemoteOptions -> W -> Completion (option Browser) * W;
  browser_url : Browser -> string -> W -> Completion unit * W;
  browser_pause : Browser -> Z -> W -> Completion unit * W;
  browser_query : Browser -> string -> W -> Completion Element * W;
  browser_execute_scroll : Browser -> Element -> W -> Completion unit * W;
  browser_deleteSession : Browser -> W -> Completion unit * W;
  element_isExisting : Element -> W -> Completion bool * W;
  element_waitForExist : Element -> Z -> W -> Completion unit * W;
  element_isDisplayed : Element -> W -> Completion bool * W;
  element_getAttribute : Element -> string -> W -> Completion (option string) * W
}.

(** ** The script *)

(** The world plus the script's mutable variables: the module-level
    [chromedriverProcess] (line 20) and the locals of [testAmazonSearchBar]
    that are assigned inside a [try] and read after it ([browser], line 71;
    [searchBar], [searchBarFound], lines 108-109). *)
Record State (W : Type) : Type := mkState {
  world : W;
  chromedriverProcess : option ChildProcess;
  browser : option Browser;
  searchBar : option Element;
  searchBarFound : bool
}.
Arguments mkState {W} _ _ _ _ _.
Arguments world {W} _.
Arguments chromedriverProcess {W} _.
Arguments browser {W} _.
Arguments searchBar {W} _.
Arguments searchBarFound {W} _.

(** A computation of the script: from a state to a completion, the state
    reached and the events produced on the way, oldest first. *)
Definition Script (W : Type) (A : Type) : Type :=
  State W -> Completion A * State W * list Event.

Section Control.

Context {W : Type}.

Definition ret {A} (a : A) : Script W A := fun st => (Normal a, st, []).

Definition throw {A} (e : JsError) : Script W A := fun st => (Throw e, st, []).

Definition bind {A B} (m : Script W A) (k : A -> Script W B) : Script W B :=
  fun st =>
    match m st with
    | (Normal a, st1, ev1) =>
        match k a st1 with
        | (c, st2, ev2) => (c, st2, ev1 ++ ev2)
        end
    | (Throw e, st1, ev1) => (Throw e, st1, ev1)
    end.

(** [try { body } catch (e) { handler e }] *)
Definition try_catch {A} (body : Script W A) (handler : JsError -> Script W A) : Script W A :=
  fun st =>
    match body st with
    | (Normal a, st1, ev1) => (Normal a, st1, ev1)
    | (Throw e, st1, ev1) =>
        match handler e st1 with
        | (c, st2, ev2) => (c, st2, ev1 ++ ev2)
        end
    end.

(** [try { body } finally { fin }]: [fin] always runs; when it throws, its
    exception is the completion of the whole statement. *)
Definition try_finally {A} (body : Script W A) (fin : Script W unit) : Script W A :=
  fun st =>
    match body st with
    | (c, st1, ev1) =>
        match fin st1 with
        | (Normal _, st2, ev2) => (c, st2, ev1 ++ ev2)
        | (Throw e', st2, ev2) => (Throw e', st2, ev1 ++ ev2)
        end
    end.

Inductive LoopCtl : Type := Break | Continue.

(** [for (const x of xs) { body x }], the body saying how it left. *)
Fixpoint for_of {A} (xs : list A) (body : A -> Script W LoopCtl) : Script W unit :=
  match xs with
  | [] => ret tt
  | x :: rest =>
      bind (body x) (fun ctl =>
        match ctl with
        | Break => ret tt
        | Continue => for_of rest body
        end)
  end.

End Control.

Declare Scope script_scope.
Delimit Scope script_scope with script.
Notation "x <- m ;; k" := (bind m (fun x => k))
  (at level 61, m at next level, right associativity) : script_scope.
Notation "m ;; k" := (bind m (fun _ => k))
  (at level 61, right associativity) : script_scope.
Open Scope script_scope.

Section Primitives.

Context {W : Type} {E : Env W}.

Definition emit (ev : Event) : Script W unit := fun st => (Normal tt, st, [ev]).

Definition invoke (fn : string) : Script W unit := emit (Invoke fn).
Definition console_log (msg : string) : Script W unit := emit (Log msg).
Definition console_error (msg : string) (e : JsError) : Script W unit := emit (LogError msg e).

Definition with_world (st : State W) (w : W) : State W :=
  mkState w (chromedriverProcess st) (browser st) (searchBar st) (searchBarFound st).

(** An awaited external call: the world answers, the answer is recorded. *)
Definition extern {T} (c : Call) (inj : T -> Value)
  (op : W -> Completion T * W) : Script W T :=
  fun st =>
    match op (world st) with
    | (Normal t, w') => (Normal t, with_world st w', [Called c (Returned (inj t))])
    | (Throw e, w') => (Throw e, with_world st w', [Called c (Threw e)])
    end.

Definition VOptString (o : option string) : Value :=
  match o with Some s => VString s | None => VNull end.

Definition VOptBrowser (o : option Browser) : Value :=
  match o with Some b => VBrowser b | None => VUndefined end.

Definition start (args : list string) : Script W ChildProcess :=
  extern (CStart args) VProcess (chromedriver_start args).

Definition set_timeout (ms : Z) : Script W unit :=
  extern (CSetTimeout ms) (fun _ => VUndefined)
    (fun w => (Normal tt, timer_elapse ms w)).

Definition kill (p : Z) : Script W unit :=
  extern (CKill p) (fun _ => VBool true) (process_kill p).

Definition remote (o : RemoteOptions) : Script W (option Browser) :=
  extern (CRemote o) VOptBrowser (wdio_remote o).

Definition url (b : Browser) (u : string) : Script W unit :=
  extern (CUrl b u) (fun _ => VUndefined) (browser_url b u).

Definition pause (b : Browser) (ms : Z) : Script W unit :=
  extern (CPause b ms) (fun _ => VUndefined) (browser_pause b ms).

Definition query (b : Browser) (selector : string) : Script W Element :=
  extern (CQuery b selector) VElement (browser_query b selector).

Definition execute_scrollIntoView (b : Browser) (el : Element) : Script W unit :=
  extern (CExecuteScroll b el) (fun _ => VUndefined) (browser_execute_scroll b el).

Definition deleteSession (b : Browser) : Script W unit :=
  extern (CDeleteSession b) (fun _ => VUndefined) (browser_deleteSession b).

Definition isExisting (el : Element) : Script W bool :=
  extern (CIsExisting el) VBool (element_isExisting el).

Definition waitForExist (el : Element) (timeout : Z) : Script W unit :=
  extern (CWaitForExist el timeout) (fun _ => VBool true) (element_waitForExist el timeout).

Definition isDisplayed (el : Element) : Script W bool :=
  extern (CIsDisplayed el) VBool (element_isDisplayed el).

Definition getAttribute (el : Element) (name : string) : Script W (option string) :=
  extern (CGetAttribute el name) VOptString (element_getAttribute el name).

(** Reads and writes of the script's variables. *)
Definition get {A} (f : State W -> A) : Script W A := fun st => (Normal (f st), st, []).

Definition set_chromedriverProcess (p : option ChildProcess) : Script W unit :=
  fun st => (Normal tt, mkState (world st) p (browser st) (searchBar st) (searchBarFound st), []).

Definition set_browser (b : option Browser) : Script W unit :=
  fun st => (Normal tt, mkState (world st) (chromedriverProcess st) b (searchBar st) (searchBarFound st), []).

Definition set_searchBar (el : option Element) : Script W unit :=
  fun st => (Normal tt, mkState (world st) (chromedriverProcess st) (browser st) el (searchBarFound st), []).

Definition set_searchBarFound (f : bool) : Script W unit :=
  fun st => (Normal tt, mkState (world st) (chromedriverProcess st) (browser st) (searchBar st) f, []).

End Primitives.

Section Program.

Context {W : Type} {E : Env W}.

(** [v || d] on an attribute value: [null] and the empty string are falsy. *)
Definition or_else (v : option string) (d : string) : string :=
  match v with
  | Some s => if String.eqb s "" then d else s
  | None => d
  end.

(** Truthiness of a variable that holds an object or [undefined]/[null]. *)
Definition truthy {A} (v : option A) : bool :=
  match v with Some _ => true | None => false end.

(** [startChromeDriver] (lines 23-36). *)
Definition startChromeDriver : Script W unit :=
  invoke "startChromeDriver" ;;
  try_catch
    (console_log "Starting ChromeDriver..." ;;
     p <- start ["--port=9515"] ;;
     set_chromedriverProcess (Some p) ;;
     console_log "ChromeDriver started successfully on port 9515" ;;
     set_timeout 1000)
    (fun error =>
       console_error "Failed to start ChromeDriver:" error ;;
       throw error).

(** [stopChromeDriver] (lines 39-48). *)
Definition stopChromeDriver : Script W unit :=
  invoke "stopChromeDriver" ;;
  proc <- get chromedriverProcess ;;
  match proc with
  | Some p =>
      try_catch
        (kill (pid p) ;;
         console_log "ChromeDriver stopped")
        (fun error => console_error "Error stopping ChromeDriver:" error)
  | None => ret tt
  end.

(** Lines 95-103: the probe of [#nav-main]; every error is ignored. *)
Definition detectPageStructure (b : Browser) : Script W unit :=
  try_catch
    (popupClose <- query b "#nav-main" ;;
     ex <- isExisting popupClose ;;
     if ex then console_log "Page structure detected" else ret tt)
    (fun _ => ret tt).

(** The double-quote character, for the selectors that contain it. *)
Definition dquote : string := String (Ascii.ascii_of_nat 34) EmptyString.

(** Lines 112-118. *)
Definition selectors : list string :=
  [ "#twotabsearchtextbox";
    ("[name=" ++ dquote ++ "field-keywords" ++ dquote ++ "]")%string;
    ("input[type=" ++ dquote ++ "text" ++ dquote ++ "][name*=" ++ dquote ++ "search" ++ dquote ++ "]")%string;
    "input#twotabsearchtextbox";
    "#nav-search-input" ].

(** The [try] block of the loop body (lines 122-143). *)
Definition trySelectorBody (b : Browser) (selector : string) : Script W LoopCtl :=
  console_log ("Trying selector: " ++ selector)%string ;;
  el <- query b selector ;;
  set_searchBar (Some el) ;;
  waitForExist el 10000 ;;
  console_log ("Element found with selector: " ++ selector)%string ;;
  execute_scrollIntoView b el ;;
  pause b 1000 ;;
  ex <- isExisting el ;;
  if ex then
    set_searchBarFound true ;;
    console_log "✅ Search bar element found!" ;;
    ret Break
  else ret Continue.

(** The loop body with its [catch] (lines 121-147). *)
Definition trySelector (b : Browser) (selector : string) : Script W LoopCtl :=
  try_catch
    (trySelectorBody b selector)
    (fun _ =>
       console_log ("Selector " ++ selector ++ " did not work, trying next...")%string ;;
       ret Continue).

(** The selector loop and the check after it (lines 105-152), for any list
    of selectors; the script runs it on [selectors]. *)
Definition findSearchBar (b : Browser) (sels : list string) : Script W Element :=
  console_log "Looking for search bar..." ;;
  set_searchBar None ;;
  set_searchBarFound false ;;
  for_of sels (trySelector b) ;;
  found <- get searchBarFound ;;
  sb <- get searchBar ;;
  match negb found || negb (truthy sb), sb with
  | false, Some el => ret el
  | _, _ => throw (Error "Search bar element not found on the page")
  end.

(** Lines 154-164. *)
Definition checkVisibility (el : Element) : Script W unit :=
  try_catch
    (isVisible <- isDisplayed el ;;
     if isVisible then
       console_log "✅ SUCCESS: Search bar is visible on Amazon homepage"
     else
       console_log "⚠️  Search bar exists but may not be visible (could be hidden or need scrolling)")
    (fun _ => console_log "⚠️  Could not check visibility, but element exists").

(** Lines 166-176. *)
Definition readAttributes (el : Element) : Script W unit :=
  try_catch
    (searchBarValue <- getAttribute el "placeholder" ;;
     searchBarId <- getAttribute el "id" ;;
     searchBarName <- getAttribute el "name" ;;
     console_log ("Search bar ID: " ++ or_else searchBarId "N/A")%string ;;
     console_log ("Search bar name: " ++ or_else searchBarName "N/A")%string ;;
     console_log ("Search bar placeholder: " ++ or_else searchBarValue "N/A")%string)
    (fun _ => console_log "Could not retrieve search bar attributes").

(** Lines 178-181. *)
Definition holdOpen (b : Browser) : Script W unit :=
  console_log "✅ Test completed successfully!" ;;
  console_log "Keeping browser open for 30 seconds for verification..." ;;
  console_log "You can interact with the browser during this time." ;;
  pause b 30000.

(** Lines 95-181: what the [try] block does once the page-load pause is over. *)
Definition afterPageLoad (b : Browser) : Script W unit :=
  detectPageStructure b ;;
  el <- findSearchBar b selectors ;;
  checkVisibility el ;;
  readAttributes el ;;
  holdOpen b.

(** The [try] block of [testAmazonSearchBar] (lines 73-181). *)
Definition testBody : Script W unit :=
  console_log "Starting WebdriverIO test..." ;;
  startChromeDriver ;;
  b <- remote options ;;
  set_browser b ;;
  console_log "Browser initialized" ;;
  match b with
  | None => throw (Error "Failed to initialize browser")
  | Some br =>
      console_log "Navigating to Amazon homepage..." ;;
      url br "https://www.amazon.com" ;;
      console_log "Amazon homepage loaded" ;;
      console_log "Waiting for page to load..." ;;
      pause br 3000 ;;
      afterPageLoad br
  end.

(** The [finally] block (lines 186-194). *)
Definition cleanup : Script W unit :=
  b <- get browser ;;
  match b with
  | Some br =>
      deleteSession br ;;
      console_log "Browser session closed"
  | None => ret tt
  end ;;
  stopChromeDriver.

(** [testAmazonSearchBar] (lines 70-195). *)
Definition testAmazonSearchBar : Script W unit :=
  invoke "testAmazonSearchBar" ;;
  set_browser None ;;
  try_finally
    (try_catch testBody
       (fun error =>
          console_error "Test failed with error:" error ;;
          throw error))
    cleanup.

(** The state the module starts in (lines 20-21: [chromedriverProcess = null]). *)
Definition initial (w : W) : State W := mkState w None None None false.

(** Lines 198-206: the call, its [then] and its [catch]; the result is the
    exit code, the final state and every event of the run. *)
Definition main (w : W) : Z * State W * list Event :=
  match testAmazonSearchBar (initial w) with
  | (Normal _, st, ev) =>
      (0, st, ev ++ [Log "Test execution finished"; Exit 0])
  | (Throw error, st, ev) =>
      (1, st, ev ++ [LogError "Test execution failed:" error; Exit 1])
  end.

End Program.

(** ** Observations on a computation *)

Definition completion {W A} (r : Completion A * State W * list Event) : Completion A :=
  fst (fst r).

Definition final {W A} (r : A * State W * list Event) : State W :=
  snd (fst r).

Definition events {W A} (r : A * State W * list Event) : list Event :=
  snd r.

(** The exit code of a run of [main]. *)
Definition exit_code {W} (r : Z * State W * list Event) : Z :=
  fst (fst r).

(** The selectors handed to [browser.$], in call order. *)
Fixpoint queried (ev : list Event) : list string :=
  match ev with
  | [] => []
  | Called (CQuery _ sel) _ :: rest => sel :: queried rest
  | _ :: rest => queried rest
  end.

(** The pids a termination signal was sent to, in call order. *)
Fixpoint killed (ev : list Event) : list Z :=
  match ev with
  | [] => []
  | Called (CKill p) _ :: rest => p :: killed rest
  | _ :: rest => killed rest
  end.

(** The messages written with [console.log], in order. *)
Fixpoint logged (ev : list Event) : list string :=
  match ev with
  | [] => []
  | Log msg :: rest => msg :: logged rest
  | _ :: rest => logged rest
  end.

(** The exit codes the process was asked to end with. *)
Fixpoint exits (ev : list Event) : list Z :=
  match ev with
  | [] => []
  | Exit code :: rest => code :: exits rest
  | _ :: rest => exits rest
  end.

Definition is_exit (ev : Event) : bool :=
  match ev with Exit _ => true | _ => false end.

Definition is_query (ev : Event) : bool :=
  match ev with Called (CQuery _ _) _ => true | _ => false end.

Definition is_deleteSession (ev : Event) : bool :=
  match ev with Called (CDeleteSession _) _ => true | _ => false end.

Definition is_stop_invocation (ev : Event) : bool :=
  match ev with Invoke fn => String.eqb fn "stopChromeDriver" | _ => false end.

(** The events that the [catch] and [finally] of [testAmazonSearchBar] and
    the final [then]/[catch] can produce. *)
Definition is_epilogue (ev : Event) : bool :=
  match ev with
  | Invoke _ | Log _ | LogError _ _ | Exit _ => true
  | Called (CKill _) _ | Called (CDeleteSession _) _ => true
  | Called _ _ => false
  end.

(** A computation all of whose events, from every state, satisfy [p]. *)
Definition only {W A} (p : Event -> bool) (m : Script W A) : Prop :=
  forall st, forallb p (events (m st)) = true.

(** Navigation reported page-load completion. *)
Definition is_navigated (ev : Event) : bool :=
  match ev with Called (CUrl _ _) (Returned _) => true | _ => false end.

(** An existence wait, if the event is one, has the 10,000 ms budget. *)
Definition waits_10s (ev : Event) : bool :=
  match ev with
  | Called (CWaitForExist _ timeout) _ => Z.eqb timeout 10000
  | _ => true
  end.

(** An attribute read that threw. *)
Definition is_failed_read (ev : Event) : bool :=
  match ev with Called (CGetAttribute _ _) (Threw _) => true | _ => false end.

(** The 30 s observation pause, or the session close, that threw. *)
Definition is_failed_hold_or_close (ev : Event) : bool :=
  match ev with
  | Called (CPause _ ms) (Threw _) => Z.eqb ms 30000
  | Called (CDeleteSession _) (Threw _) => true
  | _ => false
  end.

(** The events of the [try] block up to the navigation call, for a run
    that got that far (lines 73-88). *)
Definition before_navigation (p : ChildProcess) (b : Browser) : list Event :=
  [ Log "Starting WebdriverIO test...";
    Invoke "startChromeDriver";
    Log "Starting ChromeDriver...";
    Called (CStart ["--port=9515"]) (Returned (VProcess p));
    Log "ChromeDriver started successfully on port 9515";
    Called (CSetTimeout 1000) (Returned VUndefined);
    Called (CRemote options) (Returned (VBrowser b));
    Log "Browser initialized";
    Log "Navigating to Amazon homepage..." ].

Section Attempts.

Context {W : Type} {E : Env W}.

(** How the world answers the five calls of one pass through the loop body
    (lines 124-139), taken in the order the body makes them. *)
Inductive Verdict : Type :=
| Confirmed (el : Element)      (* all five returned, the re-check said true *)
| NotExisting (el : Element)    (* all five returned, the re-check said false *)
| Abandoned (e : JsError).      (* one of the five threw *)

Definition attempt (b : Browser) (selector : string) (w : W) : Verdict * W :=
  match browser_query b selector w with
  | (Throw e, w1) => (Abandoned e, w1)
  | (Normal el, w1) =>
      match element_waitForExist el 10000 w1 with
      | (Throw e, w2) => (Abandoned e, w2)
      | (Normal _, w2) =>
          match browser_execute_scroll b el w2 with
          | (Throw e, w3) => (Abandoned e, w3)
          | (Normal _, w3) =>
              match browser_pause b 1000 w3 with
              | (Throw e, w4) => (Abandoned e, w4)
              | (Normal _, w4) =>
                  match element_isExisting el w4 with
                  | (Throw e, w5) => (Abandoned e, w5)
                  | (Normal true, w5) => (Confirmed el, w5)
                  | (Normal false, w5) => (NotExisting el, w5)
                  end
              end
          end
      end
  end.

(** The steps of the loop body that call out, and what it means for the
    world to make one of them throw (the steps before it having returned). *)
Inductive Stage : Type := Acquire | WaitExist | Scroll | Settle | Recheck.

Inductive raises (b : Browser) (selector : string) (w : W)
  : Stage -> JsError -> W -> Prop :=
| raises_acquire e w1 :
    browser_query b selector w = (Throw e, w1) ->
    raises b selector w Acquire e w1
| raises_wait el e w1 w2 :
    browser_query b selector w = (Normal el, w1) ->
    element_waitForExist el 10000 w1 = (Throw e, w2) ->
    raises b selector w WaitExist e w2
| raises_scroll el e w1 w2 w3 :
    browser_query b selector w = (Normal el, w1) ->
    element_waitForExist el 10000 w1 = (Normal tt, w2) ->
    browser_execute_scroll b el w2 = (Throw e, w3) ->
    raises b selector w Scroll e w3
| raises_settle el e w1 w2 w3 w4 :
    browser_query b selector w = (Normal el, w1) ->
    element_waitForExist el 10000 w1 = (Normal tt, w2) ->
    browser_execute_scroll b el w2 = (Normal tt, w3) ->
    browser_pause b 1000 w3 = (Throw e, w4) ->
    raises b selector w Settle e w4
| raises_recheck el e w1 w2 w3 w4 w5 :
    browser_query b selector w = (Normal el, w1) ->
    element_waitForExist el 10000 w1 = (Normal tt, w2) ->
    browser_execute_scroll b el w2 = (Normal tt, w3) ->
    browser_pause b 1000 w3 = (Normal tt, w4) ->
    element_isExisting el w4 = (Throw e, w5) ->
    raises b selector w Recheck e w5.

(** The world reached when every selector of [sels] is tried in order and
    none is confirmed; [None] when one of them is. *)
Fixpoint fail_through (b : Browser) (sels : list string) (w : W) : option W :=
  match sels with
  | [] => Some w
  | sel :: rest =>
      match attempt b sel w with
      | (Confirmed _, _) => None
      | (_, w') => fail_through b rest w'
      end
  end.

End Attempts.

(** ** A concrete world

    A simulated environment, used to run the script on explicit inputs: a
    table of fixed answers, plus the one piece of outside state that the
    script can change, whether the ChromeDriver process is alive. *)

Record Answers : Type := mkAnswers {
  ans_start : Completion ChildProcess;
  ans_remote : Completion (option Browser);
  ans_url : Completion unit;
  ans_pause : Z -> Completion unit;
  ans_query : string -> Completion Element;
  ans_waitForExist : Element -> Completion unit;
  ans_scroll : Element -> Completion unit;
  ans_isExisting : Element -> Completion bool;
  ans_isDisplayed : Element -> Completion bool;
  ans_getAttribute : Element -> string -> Completion (option string);
  ans_deleteSession : Completion unit
}.

Record Sim : Type := mkSim {
  answers : Answers;
  alive : bool
}.

(** [process.kill] on a live process ends it; on a dead one it throws. *)
Definition sim_kill (w : Sim) : Completion unit * Sim :=
  if alive w then (Normal tt, mkSim (answers w) false)
  else (Throw (Error "kill ESRCH"), w).

Definition sim_start (w : Sim) : Completion ChildProcess * Sim :=
  match ans_start (answers w) with
  | Normal p => (Normal p, mkSim (answers w) true)
  | Throw e => (Throw e, w)
  end.

#[export] Instance Sim_Env : Env Sim := {|
  chromedriver_start := fun _ w => sim_start w;
  timer_elapse := fun _ w => w;
  process_kill := fun _ w => sim_kill w;
  wdio_remote := fun _ w => (ans_remote (answers w), w);
  browser_url := fun _ _ w => (ans_url (answers w), w);
  browser_pause := fun _ ms w => (ans_pause (answers w) ms, w);
  browser_query := fun _ sel w => (ans_query (answers w) sel, w);
  browser_execute_scroll := fun _ el w => (ans_scroll (answers w) el, w);
  browser_deleteSession := fun _ w => (ans_deleteSession (answers w), w);
  element_isExisting := fun el w => (ans_isExisting (answers w) el, w);
  element_waitForExist := fun el _ w => (ans_waitForExist (answers w) el, w);
  element_isDisplayed := fun el w => (ans_isDisplayed (answers w) el, w);
  element_getAttribute := fun el name w => (ans_getAttribute (answers w) el name, w)
|}.

(** A page on which exactly the selectors of [present] match; everything
    else answers normally. *)
Definition page_with (present : list string) : Answers :=
  {| ans_start := Normal (mkChildProcess 4242);
     ans_remote := Normal (Some (BrowserSession "s1"));
     ans_url := Normal tt;
     ans_pause := fun _ => Normal tt;
     ans_query := fun sel => Normal (ElementRef sel);
     ans_waitForExist := fun el =>
       match el with
       | ElementRef sel =>
           if existsb (String.eqb sel) present then Normal tt
           else Throw (Error "element still not existing after 10000ms")
       end;
     ans_scroll := fun _ => Normal tt;
     ans_isExisting := fun el =>
       match el with ElementRef sel => Normal (existsb (String.eqb sel) present) end;
     ans_isDisplayed := fun _ => Normal true;
     ans_getAttribute := fun el name =>
       if String.eqb name "id" then Normal (Some "twotabsearchtextbox")
       else if String.eqb name "name" then Normal (Some "field-keywords")
       else Normal (Some "Search Amazon");
     ans_deleteSession := Normal tt |}.

Definition sim (a : Answers) : Sim := mkSim a false.

Definition with_start (c : Completion ChildProcess) (a : Answers) : Answers :=
  mkAnswers c (ans_remote a) (ans_url a) (ans_pause a) (ans_query a)
    (ans_waitForExist a) (ans_scroll a) (ans_isExisting a) (ans_isDisplayed a)
    (ans_getAttribute a) (ans_deleteSession a).

Definition with_url (c : Completion unit) (a : Answers) : Answers :=
  mkAnswers (ans_start a) (ans_remote a) c (ans_pause a) (ans_query a)
    (ans_waitForExist a) (ans_scroll a) (ans_isExisting a) (ans_isDisplayed a)
    (ans_getAttribute a) (ans_deleteSession a).

Definition with_scroll (f : Element -> Completion unit) (a : Answers) : Answers :=
  mkAnswers (ans_start a) (ans_remote a) (ans_url a) (ans_pause a) (ans_query a)
    (ans_waitForExist a) f (ans_isExisting a) (ans_isDisplayed a)
    (ans_getAttribute a) (ans_deleteSession a).

Definition with_getAttribute (f : Element -> string -> Completion (option string))
  (a : Answers) : Answers :=
  mkAnswers (ans_start a) (ans_remote a) (ans_url a) (ans_pause a) (ans_query a)
    (ans_waitForExist a) (ans_scroll a) (ans_isExisting a) (ans_isDisplayed a)
    f (ans_deleteSession a).

Definition with_deleteSession (c : Completion unit) (a : Answers) : Answers :=
  mkAnswers (ans_start a) (ans_remote a) (ans_url a) (ans_pause a) (ans_query a)
    (ans_waitForExist a) (ans_scroll a) (ans_isExisting a) (ans_isDisplayed a)
    (ans_getAttribute a) c.

(** The session every simulated [remote] opens. *)
Definition s1 : Browser := BrowserSession "s1".

(** ChromeDriver cannot be spawned. *)
Definition page_start_fails : Answers :=
  with_start (Throw (Error "spawn chromedriver ENOENT")) (page_with []).

(** Navigation fails, and so does the session close during cleanup. *)
Definition page_navigation_and_close_fail : Answers :=
  with_url (Throw (Error "net::ERR_INTERNET_DISCONNECTED"))
    (with_deleteSession (Throw (Error "invalid session id")) (page_with [])).

(** [#a] and [#b] both exist; scrolling to [#a] fails. *)
Definition page_scroll_breaks : Answers :=
  with_scroll
    (fun el =>
       match el with
       | ElementRef sel =>
           if String.eqb sel "#a" then Throw (Error "javascript error: scrollIntoView")
           else Normal tt
       end)
    (page_with ["#a"; "#b"]).

(** The search box is there; reading any attribute of it fails. *)
Definition page_attributes_unreadable : Answers :=
  with_getAttribute (fun _ _ => Throw (Error "stale element reference"))
    (page_with ["#twotabsearchtextbox"]).

(** The search box is there; its [id] attribute reads as [v]. *)
Definition page_id_reads (v : option string) : Answers :=
  with_getAttribute
    (fun _ name =>
       if String.eqb name "id" then Normal v else Normal (Some "Search Amazon"))
    (page_with ["#twotabsearchtextbox"]).



Definition with_remote (c : Completion (option Browser)) (a : Answers) : Answers :=
  mkAnswers (ans_start a) c (ans_url a) (ans_pause a) (ans_query a)
    (ans_waitForExist a) (ans_scroll a) (ans_isExisting a) (ans_isDisplayed a)
    (ans_getAttribute a) (ans_deleteSession a).

(** ChromeDriver runs; the session cannot be opened. *)
Definition page_remote_fails : Answers :=
  with_remote (Throw (Error "session not created")) (page_with []).

(** ChromeDriver runs; [remote] resolves to no browser object. *)
Definition page_remote_undefined : Answers :=
  with_remote (Normal None) (page_with []).

(** Navigation fails; the session close works. *)
Definition page_navigation_fails : Answers :=
  with_url (Throw (Error "net::ERR_INTERNET_DISCONNECTED")) (page_with []).

(** The search box is found and inspected; the session close then fails. *)
Definition page_close_fails : Answers :=
  with_deleteSession (Throw (Error "invalid session id"))
    (page_with ["#twotabsearchtextbox"]).

(** ** Observations on the resources of a run *)

(** The processes [start] returned, in call order. *)
Fixpoint spawned (ev : list Event) : list ChildProcess :=
  match ev with
  | [] => []
  | Called (CStart _) (Returned (VProcess p)) :: rest => p :: spawned rest
  | _ :: rest => spawned rest
  end.

(** The sessions [remote] returned, in call order. *)
Fixpoint opened (ev : list Event) : list Browser :=
  match ev with
  | [] => []
  | Called (CRemote _) (Returned (VBrowser b)) :: rest => b :: opened rest
  | _ :: rest => opened rest
  end.

(** The sessions [deleteSession] was called on, in call order. *)
Fixpoint closed (ev : list Event) : list Browser :=
  match ev with
  | [] => []
  | Called (CDeleteSession b) _ :: rest => b :: closed rest
  | _ :: rest => closed rest
  end.

(** A session close that threw. *)
Definition is_failed_close (ev : Event) : bool :=
  match ev with Called (CDeleteSession _) (Threw _) => true | _ => false end.

(** The 30 s observation pause, whatever it answered. *)
Definition is_hold (ev : Event) : bool :=
  match ev with Called (CPause _ ms) _ => Z.eqb ms 30000 | _ => false end.

(** The 30 s observation pause that returned. *)
Definition is_hold_returned (ev : Event) : bool :=
  match ev with Called (CPause _ ms) (Returned _) => Z.eqb ms 30000 | _ => false end.

(** A call on the session or on one of its elements, the close excepted. *)
Definition is_session_traffic (ev : Event) : bool :=
  match ev with
  | Called (CUrl _ _) _ | Called (CPause _ _) _ | Called (CQuery _ _) _
  | Called (CExecuteScroll _ _) _ | Called (CIsExisting _) _
  | Called (CWaitForExist _ _) _ | Called (CIsDisplayed _) _
  | Called (CGetAttribute _ _) _ => true
  | _ => false
  end.

(** A call that brings a resource up: [start] or [remote]. *)
Definition is_setup (ev : Event) : bool :=
  match ev with
  | Called (CStart _) _ | Called (CRemote _) _ => true
  | _ => false
  end.

(** A call that takes a resource down: [deleteSession] or [process.kill]. *)
Definition is_teardown (ev : Event) : bool :=
  match ev with
  | Called (CDeleteSession _) _ | Called (CKill _) _ => true
  | _ => false
  end.

(** The line of the [catch] of [testAmazonSearchBar], whatever the error. *)
Definition is_caught_line (ev : Event) : bool :=
  match ev with
  | LogError msg _ => String.eqb msg "Test failed with error:"
  | _ => false
  end.

(** The line [stopChromeDriver] logs after [process.kill] (lines 42-46). *)
Definition stop_line (r : Reply) : Event :=
  match r with
  | Returned _ => Log "ChromeDriver stopped"
  | Threw e => LogError "Error stopping ChromeDriver:" e
  end.

(** What the [catch] of [testAmazonSearchBar] logs (lines 183-185), from
    the completion of its [try] block. *)
Definition caught (body : Completion unit) : list Event :=
  match body with
  | Throw e => [LogError "Test failed with error:" e]
  | Normal _ => []
  end.

(** The line the final [then]/[catch] reports (lines 198-206), from the
    completions of the [try] block and of the [finally] block. *)
Definition report (body fin : Completion unit) : Event :=
  match fin, body with
  | Throw e, _ => LogError "Test execution failed:" e
  | Normal _, Throw e => LogError "Test execution failed:" e
  | Normal _, Normal _ => Log "Test execution finished"
  end.

(** A computation that leaves the two resource handles of the script, the
    [chromedriverProcess] and the [browser] variable, as it found them. *)
Definition keeps_handles {W A} (m : Script W A) : Prop :=
  forall st,
    chromedriverProcess (final (m st)) = chromedriverProcess st
    /\ browser (final (m st)) = browser st.

(** A computation that leaves every variable of the script as it found it;
    only the world may have moved. *)
Definition keeps_variables {W A} (m : Script W A) : Prop :=
  forall st, final (m st) = with_world st (world (final (m st))).

(** The state right after a successful [startChromeDriver]. *)
Definition started : State Sim :=
  final (startChromeDriver (initial (sim (page_with [])))).

(** * Properties *)

#[local] Arguments String.append : simpl never.

(** Splits a list with a known spine into its front and its last element. *)
Ltac split_last :=
  match goal with
  | |- exists ev0, ?l = ev0 ++ [_] => exists (removelast l); reflexivity
  end.

Section EventDiscipline.

Context {W : Type} {E : Env W}.
Variable p : Event -> bool.

Lemma only_ret {A} (a : A) : only p (ret (W:=W) a).
Proof. intros st; reflexivity. Qed.

Lemma only_throw {A} (e : JsError) : only p (throw (W:=W) (A:=A) e).
Proof. intros st; reflexivity. Qed.

Lemma only_get {A} (f : State W -> A) : only p (get f).
Proof. intros st; reflexivity. Qed.

Lemma only_set_chromedriverProcess v : only p (set_chromedriverProcess (W:=W) v).
Proof. intros st; reflexivity. Qed.

Lemma only_set_browser v : only p (set_browser (W:=W) v).
Proof. intros st; reflexivity. Qed.

Lemma only_set_searchBar v : only p (set_searchBar (W:=W) v).
Proof. intros st; reflexivity. Qed.

Lemma only_set_searchBarFound v : only p (set_searchBarFound (W:=W) v).
Proof. intros st; reflexivity. Qed.

Lemma only_emit (ev : Event) : p ev = true -> only p (emit (W:=W) ev).
Proof. intros H st; simpl. now rewrite H. Qed.

Lemma only_extern {T} (c : Call) (inj : T -> Value) (op : W -> Completion T * W) :
  (forall r, p (Called c r) = true) -> only p (extern c inj op).
Proof.
  intros H st. unfold extern.
  destruct (op (world st)) as [[t|e] w']; simpl; now rewrite H.
Qed.

Lemma only_bind {A B} (m : Script W A) (k : A -> Script W B) :
  only p m -> (forall a, only p (k a)) -> only p (bind m k).
Proof.
  intros Hm Hk st. unfold bind. specialize (Hm st).
  destruct (m st) as [[[a|e] st1] ev1]; unfold events in *; simpl in *.
  - specialize (Hk a st1).
    destruct (k a st1) as [[c st2] ev2]; unfold events in *; simpl in *.
    now rewrite forallb_app, Hm, Hk.
  - exact Hm.
Qed.

Lemma only_try_catch {A} (m : Script W A) (h : JsError -> Script W A) :
  only p m -> (forall e, only p (h e)) -> only p (try_catch m h).
Proof.
  intros Hm Hh st. unfold try_catch. specialize (Hm st).
  destruct (m st) as [[[a|e] st1] ev1]; unfold events in *; simpl in *.
  - exact Hm.
  - specialize (Hh e st1).
    destruct (h e st1) as [[c st2] ev2]; unfold events in *; simpl in *.
    now rewrite forallb_app, Hm, Hh.
Qed.

Lemma only_try_finally {A} (m : Script W A) (fin : Script W unit) :
  only p m -> only p fin -> only p (try_finally m fin).
Proof.
  intros Hm Hf st. unfold try_finally. specialize (Hm st).
  destruct (m st) as [[c st1] ev1]; unfold events in *; simpl in *.
  specialize (Hf st1).
  destruct (fin st1) as [[[u|e] st2] ev2]; unfold events in *; simpl in *;
    now rewrite forallb_app, Hm, Hf.
Qed.

Lemma only_for_of {A} (xs : list A) (body : A -> Script W LoopCtl) :
  (forall x, only p (body x)) -> only p (for_of xs body).
Proof.
  intros Hb. induction xs as [|x rest IH]; simpl.
  - apply only_ret.
  - apply only_bind; [apply Hb|].
    intros [|]; [apply only_ret | exact IH].
Qed.

End EventDiscipline.

(** Decomposes a computation of the script along its combinators; what is
    left are the side conditions on single events. *)
Ltac only_step :=
  first
    [ apply only_bind; [|intros ?]
    | apply only_try_catch; [|intros ?]
    | apply only_try_finally
    | apply only_for_of; intros ?
    | apply only_ret
    | apply only_throw
    | apply only_get
    | apply only_set_chromedriverProcess
    | apply only_set_browser
    | apply only_set_searchBar
    | apply only_set_searchBarFound
    | apply only_emit; reflexivity
    | apply only_extern; intros []; reflexivity
    | match goal with
      | |- only _ (match ?x with _ => _ end) => destruct x
      end ].

Ltac only_script :=
  unfold testAmazonSearchBar, cleanup, testBody, afterPageLoad, holdOpen,
    readAttributes, checkVisibility, findSearchBar, trySelector,
    trySelectorBody, detectPageStructure, stopChromeDriver, startChromeDriver,
    start, set_timeout, kill, remote, url, pause, query,
    execute_scrollIntoView, deleteSession, isExisting, waitForExist,
    isDisplayed, getAttribute, console_log, console_error, invoke;
  repeat only_step.

Section LocatorTheory.

Context {W : Type} {E : Env W}.

Lemma queried_app (ev1 ev2 : list Event) :
  queried (ev1 ++ ev2) = queried ev1 ++ queried ev2.
Proof.
  induction ev1 as [|x ev1 IH]; simpl; [reflexivity|].
  destruct x as [ | | |c r| ]; try assumption.
  destruct c; simpl; congruence.
Qed.

Lemma exits_app (ev1 ev2 : list Event) :
  exits (ev1 ++ ev2) = exits ev1 ++ exits ev2.
Proof.
  induction ev1 as [|x ev1 IH]; simpl; [reflexivity|].
  destruct x; simpl; congruence.
Qed.

(** A stage that throws is an abandoned attempt, and conversely. *)
Lemma raises_attempt (b : Browser) (sel : string) (w w' : W) (stage : Stage) (e : JsError) :
  raises b sel w stage e w' -> attempt b sel w = (Abandoned e, w').
Proof.
  intros H; unfold attempt.
  destruct H;
    repeat match goal with
           | H : ?op = _ |- context [?op] => rewrite H
           end; reflexivity.
Qed.

Lemma attempt_raises (b : Browser) (sel : string) (w w' : W) (e : JsError) :
  attempt b sel w = (Abandoned e, w') -> exists stage, raises b sel w stage e w'.
Proof.
  unfold attempt.
  destruct (browser_query b sel w) as [[el|e0] w1] eqn:Hq.
  2:{ intros [= <- <-]. exists Acquire. now constructor. }
  destruct (element_waitForExist el 10000 w1) as [[[]|e0] w2] eqn:Hw.
  2:{ intros [= <- <-]. exists WaitExist. econstructor; eassumption. }
  destruct (browser_execute_scroll b el w2) as [[[]|e0] w3] eqn:Hs.
  2:{ intros [= <- <-]. exists Scroll. econstructor; eassumption. }
  destruct (browser_pause b 1000 w3) as [[[]|e0] w4] eqn:Hp.
  2:{ intros [= <- <-]. exists Settle. econstructor; eassumption. }
  destruct (element_isExisting el w4) as [[[|]|e0] w5] eqn:Hx; try discriminate.
  intros [= <- <-]. exists Recheck. econstructor; eassumption.
Qed.

(** One pass through the loop body, told from the world's answers: the
    body never throws, leaves with [break] exactly when the attempt is
    confirmed, announces its selector and hands it to [browser.$] once, and
    sets [searchBarFound] only on confirmation. *)
Lemma trySelector_attempt (b : Browser) (sel : string) (st : State W) :
  exists st' ev,
    trySelector b sel st =
      (Normal (match fst (attempt b sel (world st)) with
               | Confirmed _ => Break
               | _ => Continue
               end), st', ev)
    /\ world st' = snd (attempt b sel (world st))
    /\ chromedriverProcess st' = chromedriverProcess st
    /\ browser st' = browser st
    /\ queried ev = [sel]
    /\ (exists r ev1,
          ev = Log ("Trying selector: " ++ sel)%string :: Called (CQuery b sel) r :: ev1)
    /\ match fst (attempt b sel (world st)) with
       | Confirmed el => searchBar st' = Some el /\ searchBarFound st' = true
       | NotExisting el =>
           searchBar st' = Some el /\ searchBarFound st' = searchBarFound st
       | Abandoned _ =>
           searchBarFound st' = searchBarFound st
           /\ exists ev0,
                ev = ev0 ++ [Log ("Selector " ++ sel ++ " did not work, trying next...")%string]
       end.
Proof.
  unfold trySelector, trySelectorBody, attempt, try_catch, bind,
    query, waitForExist, execute_scrollIntoView, pause, isExisting, extern,
    console_log, emit, set_searchBar, set_searchBarFound, ret.
  destruct st as [w cdp br sb fnd]; simpl.
  destruct (browser_query b sel w) as [[el|e] w1]; simpl.
  2:{ eexists _, _. repeat split; [eexists _, _; reflexivity | split_last]. }
  destruct (element_waitForExist el 10000 w1) as [[[]|e] w2]; simpl.
  2:{ eexists _, _. repeat split; [eexists _, _; reflexivity | split_last]. }
  destruct (browser_execute_scroll b el w2) as [[[]|e] w3]; simpl.
  2:{ eexists _, _. repeat split; [eexists _, _; reflexivity | split_last]. }
  destruct (browser_pause b 1000 w3) as [[[]|e] w4]; simpl.
  2:{ eexists _, _. repeat split; [eexists _, _; reflexivity | split_last]. }
  destruct (element_isExisting el w4) as [[[|]|e] w5]; simpl.
  - eexists _, _. repeat split. eexists _, _; reflexivity.
  - eexists _, _. repeat split. eexists _, _; reflexivity.
  - eexists _, _. repeat split; [eexists _, _; reflexivity | split_last].
Qed.

(** The loop over selectors that are all tried without confirmation: it
    runs to the end of the list, one [browser.$] per selector, in order. *)
Lemma for_of_fail_through (b : Browser) (sels : list string) :
  forall (st : State W) (w' : W),
    fail_through b sels (world st) = Some w' ->
    exists st' ev,
      for_of sels (trySelector b) st = (Normal tt, st', ev)
      /\ world st' = w'
      /\ chromedriverProcess st' = chromedriverProcess st
      /\ browser st' = browser st
      /\ searchBarFound st' = searchBarFound st
      /\ queried ev = sels.
Proof.
  induction sels as [|sel rest IH]; intros st w' Hf; simpl in *.
  - injection Hf as <-. exists st, []. now repeat split.
  - destruct (trySelector_attempt b sel st)
      as (st1 & ev1 & Hrun & Hw & Hc & Hb & Hq & _ & Hv).
    destruct (attempt b sel (world st)) as [v w1] eqn:Ha; simpl in *.
    assert (Hrest : fail_through b rest (world st1) = Some w')
      by (rewrite Hw; destruct v; [discriminate | exact Hf | exact Hf]).
    assert (Hfound : searchBarFound st1 = searchBarFound st)
      by (destruct v; [discriminate | apply Hv | apply Hv]).
    destruct (IH st1 w' Hrest) as (st2 & ev2 & Hrun2 & Hw2 & Hc2 & Hb2 & Hf2 & Hq2).
    exists st2, (ev1 ++ ev2).
    unfold bind. rewrite Hrun.
    replace (match v with Confirmed _ => Break | _ => Continue end) with Continue
      by (destruct v; [discriminate | reflexivity | reflexivity]).
    rewrite Hrun2. rewrite queried_app, Hq, Hq2.
    repeat split; congruence.
Qed.

(** The loop up to and including the first confirmed selector: it stops
    there, with that selector's element in [searchBar]. *)
Lemma for_of_first_confirmed (b : Browser) (pre : list string) (s : string)
  (post : list string) (el : Element) (w1 w2 : W) (st : State W) :
  fail_through b pre (world st) = Some w1 ->
  attempt b s w1 = (Confirmed el, w2) ->
  exists st' ev,
    for_of (pre ++ s :: post) (trySelector b) st = (Normal tt, st', ev)
    /\ world st' = w2
    /\ chromedriverProcess st' = chromedriverProcess st
    /\ browser st' = browser st
    /\ searchBar st' = Some el
    /\ searchBarFound st' = true
    /\ queried ev = pre ++ [s].
Proof.
  revert st. induction pre as [|sel rest IH]; intros st Hf Ha; simpl in *.
  - injection Hf as <-.
    destruct (trySelector_attempt b s st)
      as (st1 & ev1 & Hrun & Hw & Hc & Hb & Hq & _ & Hv).
    rewrite Ha in *; simpl in *. destruct Hv as [Hsb Hfd].
    exists st1, ev1. unfold bind, ret. rewrite Hrun, app_nil_r.
    now repeat split.
  - destruct (trySelector_attempt b sel st)
      as (st1 & ev1 & Hrun & Hw & Hc & Hb & Hq & _ & Hv).
    destruct (attempt b sel (world st)) as [v wa] eqn:Hatt; simpl in *.
    assert (Hrest : fail_through b rest (world st1) = Some w1)
      by (rewrite Hw; destruct v; [discriminate | exact Hf | exact Hf]).
    destruct (IH st1 Hrest Ha)
      as (st2 & ev2 & Hrun2 & Hw2 & Hc2 & Hb2 & Hsb2 & Hf2 & Hq2).
    exists st2, (ev1 ++ ev2).
    unfold bind. rewrite Hrun.
    replace (match v with Confirmed _ => Break | _ => Continue end) with Continue
      by (destruct v; [discriminate | reflexivity | reflexivity]).
    rewrite Hrun2. rewrite queried_app, Hq, Hq2.
    repeat split; congruence.
Qed.

(** The loop never throws. *)
Lemma for_of_trySelector_normal (b : Browser) (sels : list string) :
  forall st : State W, completion (for_of sels (trySelector b) st) = Normal tt.
Proof.
  induction sels as [|sel rest IH]; intros st; simpl; [reflexivity|].
  destruct (trySelector_attempt b sel st) as (st1 & ev1 & Hrun & _).
  unfold bind. rewrite Hrun.
  destruct (match fst (attempt b sel (world st)) with
            | Confirmed _ => Break | _ => Continue end).
  - reflexivity.
  - specialize (IH st1).
    destruct (for_of rest (trySelector b) st1) as [[c s2] e2]. exact IH.
Qed.

(** The two situations of the loop are the only ones: either no strategy
    of the list is confirmed, or the list splits at the first one that is. *)
Lemma fail_through_cases (b : Browser) (sels : list string) :
  forall w : W,
    (exists w', fail_through b sels w = Some w')
    \/ (exists pre s post el w1 w2,
          sels = pre ++ s :: post
          /\ fail_through b pre w = Some w1
          /\ attempt b s w1 = (Confirmed el, w2)).
Proof.
  induction sels as [|sel rest IH]; intros w; simpl.
  - left. now exists w.
  - destruct (attempt b sel w) as [v w1] eqn:Ha.
    destruct v as [el|el|e].
    + right. exists [], sel, rest, el, w, w1. now repeat split.
    + destruct (IH w1) as [[w' Hw'] | (pre & s & post & el' & wa & wb & -> & Hp & Hs)].
      * left. now exists w'.
      * right. exists (sel :: pre), s, post, el', wa, wb.
        simpl. rewrite Ha. now repeat split.
    + destruct (IH w1) as [[w' Hw'] | (pre & s & post & el' & wa & wb & -> & Hp & Hs)].
      * left. now exists w'.
      * right. exists (sel :: pre), s, post, el', wa, wb.
        simpl. rewrite Ha. now repeat split.
Qed.

(** [findSearchBar] in terms of its loop, started with [searchBar]
    undefined and [searchBarFound] false. *)
Lemma findSearchBar_loop (b : Browser) (sels : list string) (st st1 : State W)
  (ev : list Event) :
  for_of sels (trySelector b)
    (mkState (world st) (chromedriverProcess st) (browser st) None false)
    = (Normal tt, st1, ev) ->
  findSearchBar b sels st =
    (match searchBarFound st1, searchBar st1 with
     | true, Some el => Normal el
     | _, _ => Throw (Error "Search bar element not found on the page")
     end, st1, Log "Looking for search bar..." :: ev).
Proof.
  intros Hloop.
  unfold findSearchBar, bind, console_log, emit, set_searchBar,
    set_searchBarFound, get; simpl.
  rewrite Hloop; simpl.
  destruct (searchBarFound st1), (searchBar st1); simpl;
    unfold ret, throw; rewrite ?app_nil_r; reflexivity.
Qed.

(** C2, as the script has it. For every strategy list of the form
    [pre ++ s :: post]: when no strategy of [pre], tried in order, is
    confirmed and [s] then is, with the element [el], [find] returns [el],
    and the selectors handed to [browser.$] are exactly [pre ++ [s]]: no
    strategy of [post] is attempted, and the world is left as the attempt
    of [s] left it.  Confirmed means that the acquisition, the existence
    wait, the scroll and the settle pause all returned and the re-check said
    true; a strategy of [pre] whose element exists but whose scroll, pause
    or re-check failed is passed over like one whose element is missing. *)
Theorem find_returns_first_confirmed (b : Browser) (pre : list string)
  (s : string) (post : list string) (el : Element) (w1 w2 : W) (st : State W) :
  fail_through b pre (world st) = Some w1 ->
  attempt b s w1 = (Confirmed el, w2) ->
  exists st' ev,
    findSearchBar b (pre ++ s :: post) st = (Normal el, st', ev)
    /\ world st' = w2
    /\ queried ev = pre ++ [s].
Proof.
  intros Hpre Hs.
  destruct (for_of_first_confirmed b pre s post el w1 w2
              (mkState (world st) (chromedriverProcess st) (browser st) None false)
              Hpre Hs)
    as (st1 & ev & Hrun & Hw & _ & _ & Hsb & Hfd & Hq).
  exists st1, (Log "Looking for search bar..." :: ev).
  rewrite (findSearchBar_loop b _ st st1 ev Hrun), Hsb, Hfd.
  now repeat split.
Qed.

(** C6. When no strategy of the list yields a confirmed element, [find]
    fails with the not-found error, and every strategy was handed to
    [browser.$] exactly once, in list order: none is tried a second time. *)
Theorem find_fails_when_none_confirmed (b : Browser) (sels : list string)
  (w' : W) (st : State W) :
  fail_through b sels (world st) = Some w' ->
  exists st' ev,
    findSearchBar b sels st =
      (Throw (Error "Search bar element not found on the page"), st', ev)
    /\ world st' = w'
    /\ queried ev = sels.
Proof.
  intros Hall.
  destruct (for_of_fail_through b sels
              (mkState (world st) (chromedriverProcess st) (browser st) None false)
              w' Hall)
    as (st1 & ev & Hrun & Hw & _ & _ & Hfd & Hq).
  exists st1, (Log "Looking for search bar..." :: ev).
  rewrite (findSearchBar_loop b _ st st1 ev Hrun), Hfd; simpl.
  now repeat split.
Qed.

(** C7. When any step of a strategy's attempt throws (acquisition,
    existence wait, scroll, settle pause or re-check), the loop body
    completes normally with [continue]: only that strategy is abandoned,
    [searchBarFound] is unchanged, the loop goes on with the rest of the
    list from the world the failure left, the next strategy in order is the
    next thing announced and handed to [browser.$], and the loop as a whole
    never throws. *)
Theorem exception_abandons_only_that_strategy (b : Browser) (sel : string)
  (stage : Stage) (e : JsError) (w' : W) (st : State W) :
  raises b sel (world st) stage e w' ->
  exists st' ev,
    trySelector b sel st =
      (Normal Continue, st',
       ev ++ [Log ("Selector " ++ sel ++ " did not work, trying next...")%string])
    /\ world st' = w'
    /\ searchBarFound st' = searchBarFound st
    /\ (forall rest,
          for_of (sel :: rest) (trySelector b) st =
            (completion (for_of rest (trySelector b) st'),
             final (for_of rest (trySelector b) st'),
             (ev ++ [Log ("Selector " ++ sel ++ " did not work, trying next...")%string])
               ++ events (for_of rest (trySelector b) st')))
    /\ (forall next rest, exists r ev',
          events (for_of (sel :: next :: rest) (trySelector b) st) =
            (ev ++ [Log ("Selector " ++ sel ++ " did not work, trying next...")%string])
              ++ Log ("Trying selector: " ++ next)%string
              :: Called (CQuery b next) r :: ev')
    /\ (forall sels st0, completion (for_of sels (trySelector b) st0) = Normal tt).
Proof.
  intros Hraise. apply raises_attempt in Hraise.
  destruct (trySelector_attempt b sel st)
    as (st1 & ev1 & Hrun & Hw & _ & _ & _ & _ & Hv).
  rewrite Hraise in Hrun, Hw, Hv; simpl in Hrun, Hw, Hv.
  destruct Hv as [Hfd [ev0 ->]].
  assert (Hcons : forall rest,
            for_of (sel :: rest) (trySelector b) st =
              (completion (for_of rest (trySelector b) st1),
               final (for_of rest (trySelector b) st1),
               (ev0 ++ [Log ("Selector " ++ sel ++ " did not work, trying next...")%string])
                 ++ events (for_of rest (trySelector b) st1))).
  { intros rest. simpl. unfold bind. rewrite Hrun.
    now destruct (for_of rest (trySelector b) st1) as [[c s2] e2]. }
  exists st1, ev0.
  split; [exact Hrun|]. split; [exact Hw|]. split; [exact Hfd|].
  split; [exact Hcons|]. split.
  - intros next rest. rewrite Hcons. unfold events at 1; simpl.
    destruct (trySelector_attempt b next st1)
      as (st2 & ev2 & Hrun2 & _ & _ & _ & _ & (r & ev3 & ->) & _).
    unfold bind. rewrite Hrun2.
    destruct (match fst (attempt b next (world st1)) with
              | Confirmed _ => Break | _ => Continue end).
    + exists r, (ev3 ++ []). reflexivity.
    + destruct (for_of rest (trySelector b) st2) as [[c s3] e3].
      exists r, (ev3 ++ e3). reflexivity.
  - apply for_of_trySelector_normal.
Qed.

(** C3, as the script has it. When a strategy's element was found to exist
    and the scroll or the settle pause after it throws, the locate
    operation does not fail at that point, but the strategy is given up,
    not confirmed: the outcome of [find] is that of the remaining
    strategies.  If none of them is confirmed [find] fails with the
    not-found error; if one is, [find] returns that later strategy's
    element. *)
Theorem scroll_failure_gives_the_strategy_up (b : Browser) (sel : string)
  (stage : Stage) (e : JsError) (w' : W) (st : State W) :
  stage = Scroll \/ stage = Settle ->
  raises b sel (world st) stage e w' ->
  (exists st', completion (trySelector b sel st) = Normal Continue
               /\ final (trySelector b sel st) = st'
               /\ world st' = w' /\ searchBarFound st' = searchBarFound st)
  /\ (forall rest w'',
        fail_through b rest w' = Some w'' ->
        completion (findSearchBar b (sel :: rest) st)
          = Throw (Error "Search bar element not found on the page"))
  /\ (forall pre s post el w1 w2,
        fail_through b pre w' = Some w1 ->
        attempt b s w1 = (Confirmed el, w2) ->
        completion (findSearchBar b (sel :: pre ++ s :: post) st) = Normal el
        /\ queried (events (findSearchBar b (sel :: pre ++ s :: post) st))
             = sel :: pre ++ [s]).
Proof.
  intros _ Hraise. apply raises_attempt in Hraise.
  split; [|split].
  - destruct (trySelector_attempt b sel st)
      as (st1 & ev1 & Hrun & Hw & _ & _ & _ & _ & Hv).
    rewrite Hraise in *; simpl in *.
    exists st1. rewrite Hrun. now repeat split.
  - intros rest w'' Hrest.
    destruct (for_of_fail_through b (sel :: rest)
                (mkState (world st) (chromedriverProcess st) (browser st) None false)
                w'')
      as (st1 & ev & Hrun & _ & _ & _ & Hfd & _).
    + simpl. now rewrite Hraise.
    + rewrite (findSearchBar_loop b _ st st1 ev Hrun), Hfd. reflexivity.
  - intros pre s post el w1 w2 Hpre Hs.
    destruct (for_of_first_confirmed b (sel :: pre) s post el w1 w2
                (mkState (world st) (chromedriverProcess st) (browser st) None false))
      as (st1 & ev & Hrun & _ & _ & _ & Hsb & Hfd & Hq).
    + simpl. now rewrite Hraise.
    + exact Hs.
    + change ((sel :: pre) ++ s :: post) with (sel :: pre ++ s :: post) in Hrun.
      rewrite (findSearchBar_loop b _ st st1 ev Hrun), Hsb, Hfd.
      split; [reflexivity|]. unfold events; simpl. exact Hq.
Qed.

End LocatorTheory.

(** Runs the straight-line part of the script on a symbolic state: unfolds
    the combinators and the primitives, leaving the world's answers and the
    blocks after the page-load pause folded. *)
Ltac script_exec :=
  cbv beta iota zeta delta
    [main testAmazonSearchBar testBody cleanup startChromeDriver
     stopChromeDriver initial
     try_finally try_catch bind ret throw get emit invoke console_log
     console_error extern with_world
     start set_timeout kill remote url pause deleteSession
     set_chromedriverProcess set_browser set_searchBar set_searchBarFound
     world chromedriverProcess browser searchBar searchBarFound
     events exit_code completion final fst snd].

Section RunTheory.

Context {W : Type} {E : Env W}.

(** Nothing inside [testAmazonSearchBar] ends the process. *)
Lemma testAmazonSearchBar_no_exit :
  only (W:=W) (fun ev => negb (is_exit ev)) testAmazonSearchBar.
Proof. only_script. Qed.

Lemma no_exit_exits (ev : list Event) :
  forallb (fun x => negb (is_exit x)) ev = true -> exits ev = [].
Proof.
  induction ev as [|x ev IH]; simpl; [reflexivity|].
  destruct x; simpl; intros H; try (apply IH; exact H); discriminate.
Qed.

(** The final [then]/[catch] on its own: [process.exit] is called exactly
    once, as the last event, after one report line, with code 0 when the
    promise of [testAmazonSearchBar] resolved and 1 when it rejected. *)
Lemma exit_code_follows_outcome (w : W) :
  exits (events (main w)) = [exit_code (main w)]
  /\ (exit_code (main w) = 0 <->
        completion (testAmazonSearchBar (initial w)) = Normal tt)
  /\ (exit_code (main w) = 1 <->
        exists e, completion (testAmazonSearchBar (initial w)) = Throw e)
  /\ (exists report,
        events (main w) =
          events (testAmazonSearchBar (initial w))
            ++ [report; Exit (exit_code (main w))]).
Proof.
  pose proof (testAmazonSearchBar_no_exit (initial w)) as Hquiet.
  apply no_exit_exits in Hquiet.
  unfold main.
  destruct (testAmazonSearchBar (initial w)) as [[[[]|e] st] ev];
    unfold events, exit_code, completion in *; simpl in *;
    rewrite exits_app, Hquiet; simpl.
  - split; [reflexivity|]. split; [tauto|]. split.
    + split; [discriminate | intros [e He]; discriminate].
    + now exists (Log "Test execution finished").
  - split; [reflexivity|]. split; [split; discriminate|]. split.
    + split; [intros _; now exists e | reflexivity].
    + now exists (LogError "Test execution failed:" e).
Qed.

(** C8. When [start] throws [e]: the run is the ten events below.  The
    error reported, by [startChromeDriver], by the [catch] of the test and
    by the final [catch], is [e]; no [deleteSession] is issued, since no
    session was opened; [stopChromeDriver] is still invoked, and finds no
    process to signal; the exit code is 1. *)
Theorem server_start_failure_run (w w' : W) (e : JsError) :
  chromedriver_start ["--port=9515"] w = (Throw e, w') ->
  exit_code (main w) = 1
  /\ events (main w) =
       [ Invoke "testAmazonSearchBar";
         Log "Starting WebdriverIO test...";
         Invoke "startChromeDriver";
         Log "Starting ChromeDriver...";
         Called (CStart ["--port=9515"]) (Threw e);
         LogError "Failed to start ChromeDriver:" e;
         LogError "Test failed with error:" e;
         Invoke "stopChromeDriver";
         LogError "Test execution failed:" e;
         Exit 1 ]
  /\ existsb is_deleteSession (events (main w)) = false
  /\ existsb is_stop_invocation (events (main w)) = true
  /\ killed (events (main w)) = [].
Proof.
  intros Hstart.
  assert (Hrun : exit_code (main w) = 1
                 /\ events (main w) =
                      [ Invoke "testAmazonSearchBar";
                        Log "Starting WebdriverIO test...";
                        Invoke "startChromeDriver";
                        Log "Starting ChromeDriver...";
                        Called (CStart ["--port=9515"]) (Threw e);
                        LogError "Failed to start ChromeDriver:" e;
                        LogError "Test failed with error:" e;
                        Invoke "stopChromeDriver";
                        LogError "Test execution failed:" e;
                        Exit 1 ]).
  { script_exec. rewrite Hstart. split; reflexivity. }
  destruct Hrun as [Hcode Hev]. rewrite Hev.
  repeat split; assumption || reflexivity.
Qed.

(** C5, as the script has it. [stopChromeDriver] never throws, called once
    or twice in a row.  On a handle that was never set (no process was
    started) a call does nothing but return.  On a handle that was set,
    every call sends the termination signal to the recorded pid: the handle
    is not cleared, so a second call signals a second time. *)
Theorem stop_never_throws_and_signals_each_time (st : State W) :
  completion (stopChromeDriver st) = Normal tt
  /\ completion ((stopChromeDriver ;; stopChromeDriver) st) = Normal tt
  /\ (chromedriverProcess st = None ->
        stopChromeDriver st = (Normal tt, st, [Invoke "stopChromeDriver"])
        /\ (stopChromeDriver ;; stopChromeDriver) st =
             (Normal tt, st, [Invoke "stopChromeDriver"; Invoke "stopChromeDriver"]))
  /\ (forall p, chromedriverProcess st = Some p ->
        killed (events (stopChromeDriver st)) = [pid p]
        /\ chromedriverProcess (final (stopChromeDriver st)) = Some p
        /\ killed (events ((stopChromeDriver ;; stopChromeDriver) st)) = [pid p; pid p]).
Proof.
  destruct st as [w cdp br sb fnd].
  split; [|split; [|split]].
  - script_exec. destruct cdp as [p|]; [|reflexivity].
    destruct (process_kill (pid p) w) as [[[]|e] w1]; reflexivity.
  - script_exec. destruct cdp as [p|]; [|reflexivity].
    destruct (process_kill (pid p) w) as [[[]|e] w1];
      destruct (process_kill (pid p) w1) as [[[]|e'] w2]; reflexivity.
  - simpl. intros ->. split; reflexivity.
  - simpl. intros p ->. script_exec.
    destruct (process_kill (pid p) w) as [[[]|e] w1];
      destruct (process_kill (pid p) w1) as [[[]|e'] w2];
      repeat split; reflexivity.
Qed.

Lemma cleanup_epilogue : only (W:=W) is_epilogue cleanup.
Proof. only_script. Qed.

(** The events of a run: the entry marker, the events of the [try] block,
    then only what [catch], [finally] and the final report produce. *)
Lemma main_epilogue (w : W) :
  exists rest,
    events (main w) =
      Invoke "testAmazonSearchBar" :: events (testBody (initial w)) ++ rest
    /\ forallb is_epilogue rest = true.
Proof.
  pose proof cleanup_epilogue as Hc.
  cbv beta iota zeta delta
    [main testAmazonSearchBar try_finally try_catch bind invoke emit
     set_browser console_error throw initial events fst snd
     world chromedriverProcess browser searchBar searchBarFound].
  destruct (testBody _) as [[[[]|e] st1] ev1].
  - specialize (Hc st1). destruct (cleanup st1) as [[[[]|e'] st2] ev2];
      unfold events in Hc; simpl in Hc; simpl.
    + exists (ev2 ++ [Log "Test execution finished"; Exit 0]).
      rewrite <- app_assoc. split; [reflexivity|].
      now rewrite forallb_app, Hc.
    + exists (ev2 ++ [LogError "Test execution failed:" e'; Exit 1]).
      rewrite <- app_assoc. split; [reflexivity|].
      now rewrite forallb_app, Hc.
  - specialize (Hc st1). destruct (cleanup st1) as [[[[]|e'] st2] ev2];
      unfold events in Hc; simpl in Hc; simpl.
    + exists (LogError "Test failed with error:" e :: ev2
                ++ [LogError "Test execution failed:" e; Exit 1]).
      rewrite <- !app_assoc. split; [reflexivity|].
      simpl. now rewrite forallb_app, Hc.
    + exists (LogError "Test failed with error:" e :: ev2
                ++ [LogError "Test execution failed:" e'; Exit 1]).
      rewrite <- !app_assoc. split; [reflexivity|].
      simpl. now rewrite forallb_app, Hc.
Qed.

(** The [try] block either never sees navigation return, or goes through
    the page-load pause right after it, before any [browser.$]. *)
Lemma testBody_navigation (st : State W) :
  existsb is_navigated (events (testBody st)) = false
  \/ exists b pre r post,
       events (testBody st) =
         pre ++ [ Called (CUrl b "https://www.amazon.com") (Returned VUndefined);
                  Log "Amazon homepage loaded";
                  Log "Waiting for page to load...";
                  Called (CPause b 3000) r ] ++ post
       /\ existsb is_query pre = false
       /\ existsb is_navigated pre = false.
Proof.
  destruct st as [w cdp br sb fnd]. script_exec.
  destruct (chromedriver_start _ w) as [[p|e] w1]; cbv beta iota zeta;
    [|left; reflexivity].
  destruct (wdio_remote options _) as [[[b|]|e] w2]; cbv beta iota zeta;
    [|left; reflexivity|left; reflexivity].
  destruct (browser_url b _ w2) as [[[]|e] w3]; cbv beta iota zeta;
    [|left; reflexivity].
  right.
  destruct (browser_pause b 3000 w3) as [[[]|e] w4]; cbv beta iota zeta.
  - destruct (afterPageLoad b _) as [[c st'] ev].
    exists b, (before_navigation p b), (Returned VUndefined), ev.
    repeat split; reflexivity.
  - exists b, (before_navigation p b), (Threw e), [].
    repeat split; reflexivity.
Qed.

Lemma epilogue_not_navigated (ev : list Event) :
  forallb is_epilogue ev = true -> existsb is_navigated ev = false.
Proof.
  induction ev as [|x ev IH]; simpl; [reflexivity|].
  intros H. apply andb_true_iff in H as [Hx Hev]. rewrite (IH Hev).
  destruct x as [ | | |c r| ]; try reflexivity.
  destruct c; try reflexivity; discriminate.
Qed.

Lemma testAmazonSearchBar_waits : only (W:=W) waits_10s testAmazonSearchBar.
Proof. only_script. Qed.

(** C10. In every run in which navigation returns, the events of the run
    continue, directly after the navigation call and its two log lines,
    with [browser.pause(3000)]: a fixed pause whose length does not depend
    on the page.  No [browser.$] precedes it, so every locator strategy is
    attempted after the pause; and every existence wait of the run has its
    own budget of 10,000 ms on top of it. *)
Theorem page_load_pause_follows_navigation (w : W) :
  existsb is_navigated (events (main w)) = true ->
  exists b pre r post,
    events (main w) =
      pre ++ [ Called (CUrl b "https://www.amazon.com") (Returned VUndefined);
               Log "Amazon homepage loaded";
               Log "Waiting for page to load...";
               Called (CPause b 3000) r ] ++ post
    /\ existsb is_query pre = false
    /\ existsb is_navigated pre = false
    /\ forallb waits_10s (events (main w)) = true.
Proof.
  intros Hnav.
  assert (Hwaits : forallb waits_10s (events (main w)) = true).
  { pose proof (testAmazonSearchBar_waits (initial w)) as Hw.
    unfold main.
    destruct (testAmazonSearchBar (initial w)) as [[[[]|e] st] ev];
      unfold events in *; simpl in *; now rewrite forallb_app, Hw. }
  destruct (main_epilogue w) as (rest & Hev & Hrest).
  rewrite Hev in *. clear Hev.
  destruct (testBody_navigation (initial w))
    as [Hnone | (b & pre & r & post & Hsplit & Hpre & Hpre')].
  - exfalso. simpl in Hnav.
    rewrite existsb_app, Hnone, (epilogue_not_navigated rest Hrest) in Hnav.
    discriminate.
  - rewrite Hsplit in *.
    exists b, (Invoke "testAmazonSearchBar" :: pre), r, (post ++ rest).
    split; [|split; [|split]].
    + simpl. rewrite <- !app_assoc. reflexivity.
    + exact Hpre.
    + exact Hpre'.
    + exact Hwaits.
Qed.

Lemma bind_run {A B} (m : Script W A) (k : A -> Script W B) (st : State W) :
  bind m k st =
    match m st with
    | (Normal a, st1, ev1) =>
        (completion (k a st1), final (k a st1), ev1 ++ events (k a st1))
    | (Throw e, st1, ev1) => (Throw e, st1, ev1)
    end.
Proof.
  unfold bind. destruct (m st) as [[[a|e] st1] ev1]; [|reflexivity].
  now destruct (k a st1) as [[c st2] ev2].
Qed.

Lemma before_inspection_no_failed_read (b : Browser) :
  only (W:=W) (fun ev => negb (is_failed_read ev)) (detectPageStructure b)
  /\ only (W:=W) (fun ev => negb (is_failed_read ev)) (findSearchBar b selectors)
  /\ (forall el, only (W:=W) (fun ev => negb (is_failed_read ev)) (checkVisibility el)).
Proof. split; [|split]; [| |intros el]; only_script. Qed.

Lemma no_failed_read (ev : list Event) :
  forallb (fun x => negb (is_failed_read x)) ev = true ->
  existsb is_failed_read ev = false.
Proof.
  induction ev as [|x ev IH]; simpl; [reflexivity|].
  intros H. apply andb_true_iff in H as [Hx Hev]. rewrite (IH Hev).
  now destruct (is_failed_read x).
Qed.

(** Either no attribute read fails in the blocks after the page-load
    pause, or they reach the attribute block, and end as it and the
    observation hold end. *)
Lemma afterPageLoad_inspection (b : Browser) (st : State W) :
  existsb is_failed_read (events (afterPageLoad b st)) = false
  \/ exists pre el st1,
       afterPageLoad b st =
         (completion ((readAttributes el ;; holdOpen b) st1),
          final ((readAttributes el ;; holdOpen b) st1),
          pre ++ events ((readAttributes el ;; holdOpen b) st1)).
Proof.
  destruct (before_inspection_no_failed_read b) as (Hd & Hf & Hc).
  unfold afterPageLoad. rewrite bind_run.
  specialize (Hd st).
  destruct (detectPageStructure b st) as [[[[]|e] s1] e1]; unfold events in Hd;
    simpl in Hd; [|left; now apply no_failed_read].
  rewrite bind_run. specialize (Hf s1).
  destruct (findSearchBar b selectors s1) as [[[el|e] s2] e2];
    unfold events in Hf; simpl in Hf.
  2:{ left. unfold events; simpl. apply no_failed_read.
      now rewrite forallb_app, Hd, Hf. }
  rewrite bind_run. specialize (Hc el s2).
  destruct (checkVisibility el s2) as [[[[]|e] s3] e3];
    unfold events in Hc; simpl in Hc.
  2:{ left. unfold events; simpl. apply no_failed_read.
      now rewrite !forallb_app, Hd, Hf, Hc. }
  right. exists (e1 ++ e2 ++ e3), el, s3.
  unfold completion, final, events; simpl.
  now rewrite <- !app_assoc.
Qed.

Lemma testBody_inspection (st : State W) :
  existsb is_failed_read (events (testBody st)) = false
  \/ exists pre b el st1,
       testBody st =
         (completion ((readAttributes el ;; holdOpen b) st1),
          final ((readAttributes el ;; holdOpen b) st1),
          pre ++ events ((readAttributes el ;; holdOpen b) st1)).
Proof.
  destruct st as [w cdp br sb fnd]. script_exec.
  destruct (chromedriver_start _ w) as [[p|e] w1]; cbv beta iota zeta;
    [|left; reflexivity].
  destruct (wdio_remote options _) as [[[b|]|e] w2]; cbv beta iota zeta;
    [|left; reflexivity|left; reflexivity].
  destruct (browser_url b _ w2) as [[[]|e] w3]; cbv beta iota zeta;
    [|left; reflexivity].
  destruct (browser_pause b 3000 w3) as [[[]|e] w4]; cbv beta iota zeta;
    [|left; reflexivity].
  match goal with
  | |- context [afterPageLoad b ?s] =>
      destruct (afterPageLoad_inspection b s)
        as [Hnone | (pre & el & st1 & Hrun)]
  end.
  - left. destruct (afterPageLoad b _) as [[c st'] ev].
    unfold events in Hnone; simpl in *. exact Hnone.
  - right. rewrite Hrun.
    exists (before_navigation p b
              ++ [ Called (CUrl b "https://www.amazon.com") (Returned VUndefined);
                   Log "Amazon homepage loaded";
                   Log "Waiting for page to load...";
                   Called (CPause b 3000) (Returned VUndefined) ] ++ pre),
      b, el, st1.
    reflexivity.
Qed.

Lemma epilogue_not_failed_read (ev : list Event) :
  forallb is_epilogue ev = true -> existsb is_failed_read ev = false.
Proof.
  induction ev as [|x ev IH]; simpl; [reflexivity|].
  intros H. apply andb_true_iff in H as [Hx Hev]. rewrite (IH Hev).
  destruct x as [ | | |c r| ]; try reflexivity.
  destruct c; try reflexivity; discriminate.
Qed.

(** The attribute block (lines 166-176): it never throws.  When the three
    reads return, it logs the three values, each through [|| 'N/A']; when
    one throws, it logs that the attributes could not be retrieved. *)
Lemma readAttributes_cases (el : Element) (st : State W) :
  completion (readAttributes el st) = Normal tt
  /\ ((existsb is_failed_read (events (readAttributes el st)) = false
       /\ exists v i n,
            logged (events (readAttributes el st)) =
              [ ("Search bar ID: " ++ or_else i "N/A")%string;
                ("Search bar name: " ++ or_else n "N/A")%string;
                ("Search bar placeholder: " ++ or_else v "N/A")%string ]
            /\ events (readAttributes el st) =
                 [ Called (CGetAttribute el "placeholder") (Returned (VOptString v));
                   Called (CGetAttribute el "id") (Returned (VOptString i));
                   Called (CGetAttribute el "name") (Returned (VOptString n));
                   Log ("Search bar ID: " ++ or_else i "N/A")%string;
                   Log ("Search bar name: " ++ or_else n "N/A")%string;
                   Log ("Search bar placeholder: " ++ or_else v "N/A")%string ])
      \/ (existsb is_failed_read (events (readAttributes el st)) = true
          /\ logged (events (readAttributes el st)) =
               ["Could not retrieve search bar attributes"])).
Proof.
  destruct st as [w cdp br sb fnd].
  unfold readAttributes, getAttribute. script_exec.
  destruct (element_getAttribute el "placeholder" w) as [[v|e] w1];
    cbv beta iota zeta; [|split; [reflexivity | right; split; reflexivity]].
  destruct (element_getAttribute el "id" w1) as [[i|e] w2];
    cbv beta iota zeta; [|split; [reflexivity | right; split; reflexivity]].
  destruct (element_getAttribute el "name" w2) as [[n|e] w3];
    cbv beta iota zeta; [|split; [reflexivity | right; split; reflexivity]].
  split; [reflexivity|]. left. split; [reflexivity|].
  exists v, i, n. split; reflexivity.
Qed.

(** The attribute block followed by the observation hold: the success
    report always follows the attribute block, and the outcome is that of
    the 30 s pause. *)
Lemma inspect_and_hold (el : Element) (b : Browser) (st : State W) :
  exists r,
    events ((readAttributes el ;; holdOpen b) st) =
      events (readAttributes el st)
        ++ [ Log "✅ Test completed successfully!";
             Log "Keeping browser open for 30 seconds for verification...";
             Log "You can interact with the browser during this time.";
             Called (CPause b 30000) r ]
    /\ completion ((readAttributes el ;; holdOpen b) st) =
         match r with
         | Returned _ => Normal tt
         | Threw e => Throw e
         end.
Proof.
  destruct (readAttributes_cases el st) as [Hn _].
  rewrite bind_run.
  destruct (readAttributes el st) as [[c s1] e1].
  unfold completion in Hn; simpl in Hn; subst c.
  unfold holdOpen. script_exec.
  destruct (browser_pause b 30000 _) as [[[]|e] w1]; cbv beta iota zeta.
  - exists (Returned VUndefined). split; reflexivity.
  - exists (Threw e). split; reflexivity.
Qed.

(** The [finally] block throws only when [deleteSession] did. *)
Lemma cleanup_throws_only_on_close (st : State W) :
  completion (cleanup st) = Normal tt
  \/ existsb is_failed_hold_or_close (events (cleanup st)) = true.
Proof.
  destruct st as [w cdp br sb fnd]. script_exec.
  destruct br as [b|]; cbv beta iota zeta.
  - destruct (browser_deleteSession b w) as [[[]|e] w1]; cbv beta iota zeta;
      [|right; reflexivity].
    left. destruct cdp as [p|]; cbv beta iota zeta; [|reflexivity].
    destruct (process_kill (pid p) w1) as [[[]|e] w2]; reflexivity.
  - left. destruct cdp as [p|]; cbv beta iota zeta; [|reflexivity].
    destruct (process_kill (pid p) w) as [[[]|e] w2]; reflexivity.
Qed.

(** The [finally] block when the session close returns: the close, then
    the server stop, and no exception. *)
Lemma cleanup_when_close_returns (st : State W) (b : Browser) (w1 : W) :
  browser st = Some b ->
  browser_deleteSession b (world st) = (Normal tt, w1) ->
  completion (cleanup st) = Normal tt
  /\ exists rest,
       events (cleanup st) =
         Called (CDeleteSession b) (Returned VUndefined)
         :: Log "Browser session closed"
         :: Invoke "stopChromeDriver" :: rest.
Proof.
  destruct st as [w cdp br sb fnd]; simpl. intros -> Hclose.
  script_exec. rewrite Hclose; cbv beta iota zeta.
  destruct cdp as [p|]; cbv beta iota zeta.
  - destruct (process_kill (pid p) w1) as [[[]|e] w2]; cbv beta iota zeta;
      (split; [reflexivity | eexists; reflexivity]).
  - split; [reflexivity | eexists; reflexivity].
Qed.

(** The [finally] block when the session close throws: the exception
    leaves the block at once, before [stopChromeDriver], and it becomes the
    completion of the whole [try]/[finally], whatever the [try] part did. *)
Lemma cleanup_when_close_throws (body : Script W unit) (st0 : State W)
  (b : Browser) (e : JsError) (w1 : W) :
  browser (final (body st0)) = Some b ->
  browser_deleteSession b (world (final (body st0))) = (Throw e, w1) ->
  completion (try_finally body cleanup st0) = Throw e
  /\ events (try_finally body cleanup st0) =
       events (body st0) ++ [Called (CDeleteSession b) (Threw e)].
Proof.
  unfold try_finally.
  destruct (body st0) as [[c st] ev]. unfold final, events; simpl.
  destruct st as [w cdp br sb fnd]; simpl. intros -> Hclose.
  script_exec. rewrite Hclose. split; reflexivity.
Qed.

(** How [main] is made of the [try] block and the [finally] block. *)
Lemma main_structure (w : W) :
  (exists front back,
     events (main w) =
       front ++ events (testBody (initial w))
         ++ back ++ events (cleanup (final (testBody (initial w))))
         ++ [ match completion (cleanup (final (testBody (initial w)))),
                    completion (testBody (initial w)) with
              | Throw e, _ => LogError "Test execution failed:" e
              | Normal _, Throw e => LogError "Test execution failed:" e
              | Normal _, Normal _ => Log "Test execution finished"
              end;
              Exit (exit_code (main w)) ])
  /\ (completion (testBody (initial w)) = Normal tt ->
      completion (cleanup (final (testBody (initial w)))) = Normal tt ->
      exit_code (main w) = 0).
Proof.
  cbv beta iota zeta delta
    [main testAmazonSearchBar try_finally try_catch bind invoke emit
     set_browser console_error throw initial events exit_code completion
     final fst snd world chromedriverProcess browser searchBar searchBarFound].
  destruct (testBody _) as [[[[]|e] st1] ev1];
    destruct (cleanup st1) as [[[[]|e'] st2] ev2]; split;
    try (intros; reflexivity || discriminate).
  - exists [Invoke "testAmazonSearchBar"], []. simpl.
    now rewrite <- !app_assoc.
  - exists [Invoke "testAmazonSearchBar"], []. simpl.
    now rewrite <- !app_assoc.
  - exists [Invoke "testAmazonSearchBar"], [LogError "Test failed with error:" e].
    simpl. now rewrite <- !app_assoc.
  - exists [Invoke "testAmazonSearchBar"], [LogError "Test failed with error:" e].
    simpl. now rewrite <- !app_assoc.
Qed.

Lemma existsb_false_app {A} (f : A -> bool) (l1 l2 : list A) :
  existsb f (l1 ++ l2) = false -> existsb f l1 = false /\ existsb f l2 = false.
Proof. rewrite existsb_app. apply orb_false_iff. Qed.

(** C4, as the script has it. (1) The attribute block never throws; when a
    read throws, the block logs one line and ends normally.  (2) In every
    run in which an attribute read throws, the success report is still
    logged, and the run exits with code 0 unless the 30 s observation pause
    or the session close throws afterwards.  (3) When the three reads
    return, each value is logged through [|| 'N/A']: a missing value
    ([null]) is logged as N/A, and so is an empty string; any other string
    is logged as it is. *)
Theorem attribute_reads_are_best_effort :
  (forall (el : Element) (st : State W),
     completion (readAttributes el st) = Normal tt
     /\ (existsb is_failed_read (events (readAttributes el st)) = true ->
         logged (events (readAttributes el st)) =
           ["Could not retrieve search bar attributes"]))
  /\ (forall w : W,
        existsb is_failed_read (events (main w)) = true ->
        In (Log "✅ Test completed successfully!") (events (main w))
        /\ (existsb is_failed_hold_or_close (events (main w)) = false ->
            exit_code (main w) = 0))
  /\ (forall (el : Element) (st : State W) v i n w1 w2 w3,
        element_getAttribute el "placeholder" (world st) = (Normal v, w1) ->
        element_getAttribute el "id" w1 = (Normal i, w2) ->
        element_getAttribute el "name" w2 = (Normal n, w3) ->
        logged (events (readAttributes el st)) =
          [ ("Search bar ID: " ++ or_else i "N/A")%string;
            ("Search bar name: " ++ or_else n "N/A")%string;
            ("Search bar placeholder: " ++ or_else v "N/A")%string ])
  /\ or_else None "N/A" = "N/A"
  /\ or_else (Some "") "N/A" = "N/A"
  /\ (forall s, s <> "" -> or_else (Some s) "N/A" = s).
Proof.
  split; [|split; [|split; [|split; [|split]]]].
  - intros el st.
    destruct (readAttributes_cases el st) as [Hn [[Hno _] | [_ Hlog]]].
    + split; [exact Hn|]. rewrite Hno. discriminate.
    + split; [exact Hn|]. intros _. exact Hlog.
  - intros w Hfail.
    destruct (main_epilogue w) as (rest & Hev & Hrest).
    destruct (main_structure w) as [(front & back & Hshape) Hzero].
    destruct (testBody_inspection (initial w))
      as [Hnone | (pre & b & el & st1 & Hbody)].
    { exfalso. rewrite Hev in Hfail. simpl in Hfail.
      rewrite existsb_app, Hnone, (epilogue_not_failed_read rest Hrest) in Hfail.
      discriminate. }
    destruct (inspect_and_hold el b st1) as (r & Hhold & Hcompl).
    assert (Hbev : events (testBody (initial w)) =
                   pre ++ events (readAttributes el st1)
                     ++ [ Log "✅ Test completed successfully!";
                          Log "Keeping browser open for 30 seconds for verification...";
                          Log "You can interact with the browser during this time.";
                          Called (CPause b 30000) r ])
      by (rewrite Hbody; unfold events at 1; simpl; now rewrite Hhold).
    split.
    + rewrite Hev, Hbev. right.
      apply in_or_app; left. apply in_or_app; right.
      apply in_or_app; right. now left.
    + intros Hclean. apply Hzero.
      * rewrite Hbody. unfold completion at 1; simpl. rewrite Hcompl.
        destruct r as [v|e]; [reflexivity|]. exfalso.
        rewrite Hev, Hbev in Hclean. simpl in Hclean.
        apply existsb_false_app in Hclean as [Hclean _].
        apply existsb_false_app in Hclean as [_ Hclean].
        apply existsb_false_app in Hclean as [_ Hclean].
        discriminate.
      * destruct (cleanup_throws_only_on_close (final (testBody (initial w))))
          as [Hok | Hbad]; [exact Hok|]. exfalso.
        rewrite Hshape in Hclean.
        apply existsb_false_app in Hclean as [_ Hclean].
        apply existsb_false_app in Hclean as [_ Hclean].
        apply existsb_false_app in Hclean as [_ Hclean].
        apply existsb_false_app in Hclean as [Hclean _].
        congruence.
  - intros el st v i n w1 w2 w3 Hv Hi Hn.
    destruct st as [w cdp br sb fnd]; simpl in Hv.
    unfold readAttributes, getAttribute. script_exec.
    rewrite Hv; cbv beta iota zeta. rewrite Hi; cbv beta iota zeta.
    rewrite Hn; cbv beta iota zeta. reflexivity.
  - reflexivity.
  - reflexivity.
  - intros s Hs. unfold or_else.
    destruct (String.eqb_spec s ""); [contradiction | reflexivity].
Qed.

End RunTheory.

(** * The properties on explicit runs *)

(** C1, evaluated. ChromeDriver starts and the session opens; navigation
    throws, and then [deleteSession] throws inside [finally].  The session
    close is attempted, but [stopChromeDriver] is never invoked and no
    termination signal is sent, and the error the run reports is the one of
    [deleteSession], not the navigation error. *)
Theorem failed_session_close_skips_stop_and_masks_failure :
  events (main (sim page_navigation_and_close_fail)) =
    Invoke "testAmazonSearchBar"
    :: before_navigation (mkChildProcess 4242) s1
    ++ [ Called (CUrl s1 "https://www.amazon.com")
           (Threw (Error "net::ERR_INTERNET_DISCONNECTED"));
         LogError "Test failed with error:" (Error "net::ERR_INTERNET_DISCONNECTED");
         Called (CDeleteSession s1) (Threw (Error "invalid session id"));
         LogError "Test execution failed:" (Error "invalid session id");
         Exit 1 ]
  /\ exit_code (main (sim page_navigation_and_close_fail)) = 1
  /\ existsb is_deleteSession (events (main (sim page_navigation_and_close_fail))) = true
  /\ existsb is_stop_invocation (events (main (sim page_navigation_and_close_fail))) = false
  /\ killed (events (main (sim page_navigation_and_close_fail))) = []
  /\ chromedriverProcess (final (main (sim page_navigation_and_close_fail)))
     = Some (mkChildProcess 4242)
  /\ alive (world (final (main (sim page_navigation_and_close_fail)))) = true.
Proof. repeat split; vm_compute; reflexivity. Qed.

(** C2 on a page where [#b] and [#c] match and [#a] does not. *)
Lemma find_returns_first_confirmed_witness :
  fail_through s1 ["#a"] (sim (page_with ["#b"; "#c"])) = Some (sim (page_with ["#b"; "#c"]))
  /\ attempt s1 "#b" (sim (page_with ["#b"; "#c"]))
     = (Confirmed (ElementRef "#b"), sim (page_with ["#b"; "#c"]))
  /\ exists st' ev,
       findSearchBar s1 (["#a"] ++ "#b" :: ["#c"]) (initial (sim (page_with ["#b"; "#c"])))
         = (Normal (ElementRef "#b"), st', ev)
       /\ world st' = sim (page_with ["#b"; "#c"])
       /\ queried ev = ["#a"] ++ ["#b"].
Proof.
  split; [reflexivity|]. split; [reflexivity|].
  apply (find_returns_first_confirmed s1 ["#a"] "#b" ["#c"] (ElementRef "#b")
           (sim (page_with ["#b"; "#c"])) (sim (page_with ["#b"; "#c"]))
           (initial (sim (page_with ["#b"; "#c"]))));
    reflexivity.
Defined.

(** C6 on a page where none of the five selectors of the script matches. *)
Lemma find_fails_when_none_confirmed_witness :
  fail_through s1 selectors (sim (page_with [])) = Some (sim (page_with []))
  /\ exists st' ev,
       findSearchBar s1 selectors (initial (sim (page_with [])))
         = (Throw (Error "Search bar element not found on the page"), st', ev)
       /\ world st' = sim (page_with [])
       /\ queried ev = selectors.
Proof.
  split; [reflexivity|].
  apply (find_fails_when_none_confirmed s1 selectors (sim (page_with []))
           (initial (sim (page_with [])))).
  reflexivity.
Defined.

(** C7 on a page without [#a]: the existence wait of the first strategy
    times out, and the loop goes on to [#b]. *)
Lemma exception_abandons_only_that_strategy_witness :
  raises s1 "#a" (sim (page_with ["#b"])) WaitExist
    (Error "element still not existing after 10000ms") (sim (page_with ["#b"]))
  /\ exists st' ev,
       trySelector s1 "#a" (initial (sim (page_with ["#b"]))) =
         (Normal Continue, st',
          ev ++ [Log "Selector #a did not work, trying next..."])
       /\ world st' = sim (page_with ["#b"])
       /\ searchBarFound st' = false.
Proof.
  assert (H : raises s1 "#a" (world (initial (sim (page_with ["#b"])))) WaitExist
                (Error "element still not existing after 10000ms")
                (sim (page_with ["#b"])))
    by (eapply raises_wait; reflexivity).
  split; [exact H|].
  destruct (exception_abandons_only_that_strategy s1 "#a" WaitExist _ _ _ H)
    as (st' & ev & Hrun & Hw & Hf & _).
  exists st', ev. split; [exact Hrun|]. split; [exact Hw|exact Hf].
Defined.

(** C3 as the specification states it fails on a page where [#a] and [#b] exist and
    scrolling to [#a] throws: the element of [#a] was found to exist, yet
    the element returned is that of [#b], and with [#a] as the only
    strategy nothing is returned at all. *)
Lemma scroll_failure_counterexample :
  completion (query s1 "#a" (initial (sim page_scroll_breaks)))
    = Normal (ElementRef "#a")
  /\ completion (waitForExist (ElementRef "#a") 10000 (initial (sim page_scroll_breaks)))
     = Normal tt
  /\ completion (execute_scrollIntoView s1 (ElementRef "#a") (initial (sim page_scroll_breaks)))
     = Throw (Error "javascript error: scrollIntoView")
  /\ completion (findSearchBar s1 ["#a"; "#b"] (initial (sim page_scroll_breaks)))
     = Normal (ElementRef "#b")
  /\ completion (findSearchBar s1 ["#a"] (initial (sim page_scroll_breaks)))
     = Throw (Error "Search bar element not found on the page").
Proof. repeat split; reflexivity. Qed.

(** C3 as the script has it, on the same page. *)
Lemma scroll_failure_gives_the_strategy_up_witness :
  raises s1 "#a" (sim page_scroll_breaks) Scroll
    (Error "javascript error: scrollIntoView") (sim page_scroll_breaks)
  /\ completion (trySelector s1 "#a" (initial (sim page_scroll_breaks)))
     = Normal Continue
  /\ completion (findSearchBar s1 ("#a" :: [] ++ "#b" :: []) (initial (sim page_scroll_breaks)))
     = Normal (ElementRef "#b").
Proof.
  assert (H : raises s1 "#a" (world (initial (sim page_scroll_breaks))) Scroll
                (Error "javascript error: scrollIntoView") (sim page_scroll_breaks))
    by (eapply raises_scroll; reflexivity).
  split; [exact H|].
  destruct (scroll_failure_gives_the_strategy_up s1 "#a" Scroll _ _ _
              (or_introl eq_refl) H)
    as ((st' & Hc & _) & _ & Hlater).
  split; [exact Hc|].
  apply (Hlater [] "#b" [] (ElementRef "#b")
           (sim page_scroll_breaks) (sim page_scroll_breaks));
    reflexivity.
Defined.

(** C4 as the specification states it fails: an [id] attribute that is missing and
    one that is the empty string are answered differently by the browser,
    and the script reports both runs with the same lines. *)
Lemma missing_and_empty_attribute_counterexample :
  events (getAttribute (ElementRef "#twotabsearchtextbox") "id"
            (initial (sim (page_id_reads None))))
    = [Called (CGetAttribute (ElementRef "#twotabsearchtextbox") "id") (Returned VNull)]
  /\ events (getAttribute (ElementRef "#twotabsearchtextbox") "id"
               (initial (sim (page_id_reads (Some "")))))
     = [Called (CGetAttribute (ElementRef "#twotabsearchtextbox") "id")
          (Returned (VString ""))]
  /\ logged (events (main (sim (page_id_reads None))))
     = logged (events (main (sim (page_id_reads (Some "")))))
  /\ In "Search bar ID: N/A" (logged (events (main (sim (page_id_reads (Some ""))))))
  /\ exit_code (main (sim (page_id_reads None))) = 0.
Proof.
  split; [reflexivity|]. split; [reflexivity|].
  split; [vm_compute; reflexivity|].
  split; [|vm_compute; reflexivity].
  vm_compute. repeat (first [left; reflexivity | right]).
Qed.

(** C4 as the script has it, on a page whose attributes cannot be read. *)
Lemma attribute_reads_are_best_effort_witness :
  existsb is_failed_read (events (main (sim page_attributes_unreadable))) = true
  /\ existsb is_failed_hold_or_close (events (main (sim page_attributes_unreadable))) = false
  /\ In (Log "✅ Test completed successfully!")
       (events (main (sim page_attributes_unreadable)))
  /\ exit_code (main (sim page_attributes_unreadable)) = 0.
Proof.
  assert (Hread : existsb is_failed_read
                    (events (main (sim page_attributes_unreadable))) = true)
    by (vm_compute; reflexivity).
  assert (Hrest : existsb is_failed_hold_or_close
                    (events (main (sim page_attributes_unreadable))) = false)
    by (vm_compute; reflexivity).
  split; [exact Hread|]. split; [exact Hrest|].
  destruct (proj1 (proj2 (attribute_reads_are_best_effort (W:=Sim)))
              (sim page_attributes_unreadable) Hread) as [Hlog Hexit].
  split; [exact Hlog | exact (Hexit Hrest)].
Defined.

(** C5 as the specification states it fails: after a successful start, calling
    [stopChromeDriver] twice in a row sends the termination signal twice;
    the second one reaches a process that is already gone, and the error
    of that call is logged. *)
Lemma second_stop_signals_again_counterexample :
  chromedriverProcess started = Some (mkChildProcess 4242)
  /\ events ((stopChromeDriver ;; stopChromeDriver) started) =
       [ Invoke "stopChromeDriver";
         Called (CKill 4242) (Returned (VBool true));
         Log "ChromeDriver stopped";
         Invoke "stopChromeDriver";
         Called (CKill 4242) (Threw (Error "kill ESRCH"));
         LogError "Error stopping ChromeDriver:" (Error "kill ESRCH") ]
  /\ killed (events ((stopChromeDriver ;; stopChromeDriver) started)) = [4242; 4242].
Proof. repeat split; reflexivity. Qed.

(** C5 as the script has it: on the started handle, and on the handle of a
    run whose server never started. *)
Lemma stop_never_throws_and_signals_each_time_witness :
  (completion ((stopChromeDriver ;; stopChromeDriver) started) = Normal tt
   /\ killed (events (stopChromeDriver started)) = [4242]
   /\ killed (events ((stopChromeDriver ;; stopChromeDriver) started)) = [4242; 4242])
  /\ stopChromeDriver (initial (sim page_start_fails))
     = (Normal tt, initial (sim page_start_fails), [Invoke "stopChromeDriver"]).
Proof.
  split.
  - destruct (stop_never_throws_and_signals_each_time started)
      as (_ & Htwice & _ & Hset).
    destruct (Hset (mkChildProcess 4242) eq_refl) as (Hone & _ & Htwo).
    split; [exact Htwice|]. split; [exact Hone | exact Htwo].
  - destruct (stop_never_throws_and_signals_each_time (initial (sim page_start_fails)))
      as (_ & _ & Hunset & _).
    exact (proj1 (Hunset eq_refl)).
Defined.

(** C8 on a machine where ChromeDriver cannot be spawned. *)
Lemma server_start_failure_run_witness :
  chromedriver_start ["--port=9515"] (sim page_start_fails)
    = (Throw (Error "spawn chromedriver ENOENT"), sim page_start_fails)
  /\ exit_code (main (sim page_start_fails)) = 1
  /\ existsb is_deleteSession (events (main (sim page_start_fails))) = false
  /\ existsb is_stop_invocation (events (main (sim page_start_fails))) = true
  /\ killed (events (main (sim page_start_fails))) = [].
Proof.
  assert (H : chromedriver_start ["--port=9515"] (sim page_start_fails)
               = (Throw (Error "spawn chromedriver ENOENT"), sim page_start_fails))
    by reflexivity.
  split; [exact H|].
  destruct (server_start_failure_run (sim page_start_fails) (sim page_start_fails)
              (Error "spawn chromedriver ENOENT") H)
    as (Hcode & _ & Hclose & Hstop & Hkill).
  split; [exact Hcode|]. split; [exact Hclose|]. split; [exact Hstop|exact Hkill].
Defined.

(** C10 on a page where only the last selector of the script matches. *)
Lemma page_load_pause_follows_navigation_witness :
  existsb is_navigated (events (main (sim (page_with ["#nav-search-input"])))) = true
  /\ exists b pre r post,
       events (main (sim (page_with ["#nav-search-input"]))) =
         pre ++ [ Called (CUrl b "https://www.amazon.com") (Returned VUndefined);
                  Log "Amazon homepage loaded";
                  Log "Waiting for page to load...";
                  Called (CPause b 3000) r ] ++ post
       /\ existsb is_query pre = false
       /\ existsb is_navigated pre = false
       /\ forallb waits_10s (events (main (sim (page_with ["#nav-search-input"])))) = true.
Proof.
  assert (H : existsb is_navigated
                (events (main (sim (page_with ["#nav-search-input"])))) = true)
    by (vm_compute; reflexivity).
  split; [exact H|].
  exact (page_load_pause_follows_navigation (sim (page_with ["#nav-search-input"])) H).
Defined.

(** * Further properties of the script *)

Section HandleDiscipline.

Context {W : Type} {E : Env W}.

Lemma keeps_ret {A} (a : A) : keeps_handles (ret (W:=W) a).
Proof. intros st; split; reflexivity. Qed.

Lemma keeps_throw {A} (e : JsError) : keeps_handles (throw (W:=W) (A:=A) e).
Proof. intros st; split; reflexivity. Qed.

Lemma keeps_get {A} (f : State W -> A) : keeps_handles (get f).
Proof. intros st; split; reflexivity. Qed.

Lemma keeps_emit (ev : Event) : keeps_handles (emit (W:=W) ev).
Proof. intros st; split; reflexivity. Qed.

Lemma keeps_set_searchBar v : keeps_handles (set_searchBar (W:=W) v).
Proof. intros st; split; reflexivity. Qed.

Lemma keeps_set_searchBarFound v : keeps_handles (set_searchBarFound (W:=W) v).
Proof. intros st; split; reflexivity. Qed.

Lemma keeps_extern {T} (c : Call) (inj : T -> Value) (op : W -> Completion T * W) :
  keeps_handles (extern c inj op).
Proof.
  intros st. unfold extern.
  destruct (op (world st)) as [[t|e] w']; split; reflexivity.
Qed.

Lemma keeps_bind {A B} (m : Script W A) (k : A -> Script W B) :
  keeps_handles m -> (forall a, keeps_handles (k a)) -> keeps_handles (bind m k).
Proof.
  intros Hm Hk st. unfold bind. specialize (Hm st).
  destruct (m st) as [[[a|e] st1] ev1]; unfold final in *; simpl in *.
  - specialize (Hk a st1).
    destruct (k a st1) as [[c st2] ev2]; unfold final in *; simpl in *.
    destruct Hm, Hk. split; congruence.
  - exact Hm.
Qed.

Lemma keeps_try_catch {A} (m : Script W A) (h : JsError -> Script W A) :
  keeps_handles m -> (forall e, keeps_handles (h e)) -> keeps_handles (try_catch m h).
Proof.
  intros Hm Hh st. unfold try_catch. specialize (Hm st).
  destruct (m st) as [[[a|e] st1] ev1]; unfold final in *; simpl in *.
  - exact Hm.
  - specialize (Hh e st1).
    destruct (h e st1) as [[c st2] ev2]; unfold final in *; simpl in *.
    destruct Hm, Hh. split; congruence.
Qed.

Lemma keeps_for_of {A} (xs : list A) (body : A -> Script W LoopCtl) :
  (forall x, keeps_handles (body x)) -> keeps_handles (for_of xs body).
Proof.
  intros Hb. induction xs as [|x rest IH]; simpl.
  - apply keeps_ret.
  - apply keeps_bind; [apply Hb|].
    intros [|]; [apply keeps_ret | exact IH].
Qed.

End HandleDiscipline.

Ltac keeps_step :=
  first
    [ apply keeps_bind; [|intros ?]
    | apply keeps_try_catch; [|intros ?]
    | apply keeps_for_of; intros ?
    | apply keeps_ret
    | apply keeps_throw
    | apply keeps_get
    | apply keeps_emit
    | apply keeps_set_searchBar
    | apply keeps_set_searchBarFound
    | apply keeps_extern
    | match goal with
      | |- keeps_handles (match ?x with _ => _ end) => destruct x
      end ].

Ltac keeps_script :=
  unfold afterPageLoad, holdOpen, readAttributes, checkVisibility,
    findSearchBar, trySelector, trySelectorBody, detectPageStructure,
    url, pause, query, execute_scrollIntoView, isExisting, waitForExist,
    isDisplayed, getAttribute, console_log, console_error;
  repeat keeps_step.

Section ResourceTheory.

Context {W : Type} {E : Env W}.

Lemma spawned_app (ev1 ev2 : list Event) :
  spawned (ev1 ++ ev2) = spawned ev1 ++ spawned ev2.
Proof.
  induction ev1 as [|x ev1 IH]; simpl; [reflexivity|].
  destruct x as [ | | |c r| ]; try assumption.
  destruct c; try assumption. destruct r as [v|e]; try assumption.
  destruct v; simpl; congruence.
Qed.

Lemma opened_app (ev1 ev2 : list Event) :
  opened (ev1 ++ ev2) = opened ev1 ++ opened ev2.
Proof.
  induction ev1 as [|x ev1 IH]; simpl; [reflexivity|].
  destruct x as [ | | |c r| ]; try assumption.
  destruct c; try assumption. destruct r as [v|e]; try assumption.
  destruct v; simpl; congruence.
Qed.

Lemma closed_app (ev1 ev2 : list Event) :
  closed (ev1 ++ ev2) = closed ev1 ++ closed ev2.
Proof.
  induction ev1 as [|x ev1 IH]; simpl; [reflexivity|].
  destruct x as [ | | |c r| ]; try assumption.
  destruct c; simpl; congruence.
Qed.

Lemma killed_app (ev1 ev2 : list Event) :
  killed (ev1 ++ ev2) = killed ev1 ++ killed ev2.
Proof.
  induction ev1 as [|x ev1 IH]; simpl; [reflexivity|].
  destruct x as [ | | |c r| ]; try assumption.
  destruct c; simpl; congruence.
Qed.

Lemma none_of (q : Event -> bool) (ev : list Event) :
  forallb (fun x => negb (q x)) ev = true -> existsb q ev = false.
Proof.
  induction ev as [|x ev IH]; simpl; [reflexivity|].
  intros H. apply andb_true_iff in H as [Hx Hev]. rewrite (IH Hev).
  now destruct (q x).
Qed.

(** [afterPageLoad] touches neither handle. *)
Lemma afterPageLoad_keeps_handles (b : Browser) :
  keeps_handles (W:=W) (afterPageLoad b).
Proof. keeps_script. Qed.

End ResourceTheory.

Section BlockTheory.

Context {W : Type} {E : Env W}.

(** X1. When [start] returns a process, [startChromeDriver] records it in
    [chromedriverProcess], waits the 1000 ms settle delay and returns; a
    [stopChromeDriver] after it then sends one termination signal, to the
    pid of that very process, and does not throw. *)
Theorem start_then_stop_signals_the_started_process (st : State W)
  (p : ChildProcess) (w1 : W) :
  chromedriver_start ["--port=9515"] (world st) = (Normal p, w1) ->
  startChromeDriver st =
    (Normal tt,
     mkState (timer_elapse 1000 w1) (Some p) (browser st) (searchBar st)
       (searchBarFound st),
     [ Invoke "startChromeDriver";
       Log "Starting ChromeDriver...";
       Called (CStart ["--port=9515"]) (Returned (VProcess p));
       Log "ChromeDriver started successfully on port 9515";
       Called (CSetTimeout 1000) (Returned VUndefined) ])
  /\ completion (stopChromeDriver (final (startChromeDriver st))) = Normal tt
  /\ killed (events (stopChromeDriver (final (startChromeDriver st)))) = [pid p].
Proof.
  intros Hstart. destruct st as [w cdp br sb fnd]; simpl in Hstart.
  assert (Hrun : startChromeDriver (mkState w cdp br sb fnd) =
                 (Normal tt, mkState (timer_elapse 1000 w1) (Some p) br sb fnd,
                  [ Invoke "startChromeDriver";
                    Log "Starting ChromeDriver...";
                    Called (CStart ["--port=9515"]) (Returned (VProcess p));
                    Log "ChromeDriver started successfully on port 9515";
                    Called (CSetTimeout 1000) (Returned VUndefined) ])).
  { script_exec. rewrite Hstart. reflexivity. }
  split; [exact Hrun|]. rewrite Hrun. script_exec.
  destruct (process_kill (pid p) (timer_elapse 1000 w1)) as [[[]|e] w2];
    split; reflexivity.
Qed.

(** X2. When [start] throws, [startChromeDriver] logs the error and throws
    the same error again: it does not wait the settle delay and leaves
    [chromedriverProcess] as it was, so that with no earlier process a
    [stopChromeDriver] after it sends no signal. *)
Theorem failed_start_is_rethrown_and_records_nothing (st : State W)
  (e : JsError) (w1 : W) :
  chromedriver_start ["--port=9515"] (world st) = (Throw e, w1) ->
  startChromeDriver st =
    (Throw e, with_world st w1,
     [ Invoke "startChromeDriver";
       Log "Starting ChromeDriver...";
       Called (CStart ["--port=9515"]) (Threw e);
       LogError "Failed to start ChromeDriver:" e ])
  /\ chromedriverProcess (final (startChromeDriver st)) = chromedriverProcess st
  /\ (chromedriverProcess st = None ->
      killed (events (stopChromeDriver (final (startChromeDriver st)))) = []).
Proof.
  intros Hstart. destruct st as [w cdp br sb fnd]; simpl in Hstart.
  assert (Hrun : startChromeDriver (mkState w cdp br sb fnd) =
                 (Throw e, with_world (mkState w cdp br sb fnd) w1,
                  [ Invoke "startChromeDriver";
                    Log "Starting ChromeDriver...";
                    Called (CStart ["--port=9515"]) (Threw e);
                    LogError "Failed to start ChromeDriver:" e ])).
  { script_exec. rewrite Hstart. reflexivity. }
  split; [exact Hrun|]. rewrite Hrun. split; [reflexivity|].
  simpl. intros ->. reflexivity.
Qed.

(** X3. The probe of [#nav-main] can neither fail the run nor change a
    variable of the script: it always completes normally, whatever the two
    calls answer, and it logs its one line exactly when the element was
    acquired and reported as existing. *)
Theorem page_probe_is_harmless (b : Browser) (st : State W) :
  completion (detectPageStructure b st) = Normal tt
  /\ final (detectPageStructure b st)
     = with_world st (world (final (detectPageStructure b st)))
  /\ (logged (events (detectPageStructure b st)) = ["Page structure detected"]
      \/ logged (events (detectPageStructure b st)) = [])
  /\ (logged (events (detectPageStructure b st)) = ["Page structure detected"]
      <-> exists el,
            In (Called (CQuery b "#nav-main") (Returned (VElement el)))
              (events (detectPageStructure b st))
            /\ In (Called (CIsExisting el) (Returned (VBool true)))
                 (events (detectPageStructure b st))).
Proof.
  destruct st as [w cdp br sb fnd].
  unfold detectPageStructure, query, isExisting. script_exec.
  destruct (browser_query b "#nav-main" w) as [[el|e] w1]; cbv beta iota zeta.
  - destruct (element_isExisting el w1) as [[[|]|e] w2]; cbv beta iota zeta;
      (split; [reflexivity|]); (split; [reflexivity|]).
    + split; [left; reflexivity|]. split; [|reflexivity].
      intros _. exists el. simpl. split; [now left | right; now left].
    + split; [right; reflexivity|]. split; [discriminate|].
      intros (el' & Hq & Hx). simpl in Hq, Hx.
      destruct Hx as [Hx|[Hx|[]]]; discriminate.
    + split; [right; reflexivity|]. split; [discriminate|].
      intros (el' & Hq & Hx). simpl in Hq, Hx.
      destruct Hx as [Hx|[Hx|[]]]; discriminate.
  - split; [reflexivity|]. split; [reflexivity|].
    split; [right; reflexivity|]. split; [discriminate|].
    intros (el' & Hq & Hx). simpl in Hq.
    destruct Hq as [Hq|[]]; discriminate.
Qed.

(** X4. The visibility check is advisory: whether [isDisplayed] answers
    true, answers false or throws, the check completes normally, changes no
    variable of the script and logs exactly one line, which tells the three
    answers apart. *)
Theorem visibility_check_is_advisory (el : Element) (st : State W) :
  completion (checkVisibility el st) = Normal tt
  /\ final (checkVisibility el st)
     = with_world st (world (final (checkVisibility el st)))
  /\ exists r,
       events (checkVisibility el st) =
         [ Called (CIsDisplayed el) r;
           Log (match r with
                | Returned (VBool true) =>
                    "✅ SUCCESS: Search bar is visible on Amazon homepage"
                | Returned _ =>
                    "⚠️  Search bar exists but may not be visible (could be hidden or need scrolling)"
                | Threw _ =>
                    "⚠️  Could not check visibility, but element exists"
                end) ].
Proof.
  destruct st as [w cdp br sb fnd].
  unfold checkVisibility, isDisplayed. script_exec.
  destruct (element_isDisplayed el w) as [[[|]|e] w1]; cbv beta iota zeta;
    (split; [reflexivity|]); (split; [reflexivity|]).
  - now exists (Returned (VBool true)).
  - now exists (Returned (VBool false)).
  - now exists (Threw e).
Qed.

End BlockTheory.

Section FindTheory.

Context {W : Type} {E : Env W}.

(** X5. What [find] can give back.  It returns an element only when the
    list splits at a strategy that was confirmed with that element after
    all the strategies before it failed; the only error it ever throws is
    the not-found error, and only when no strategy is confirmed: an
    exception of the driver never leaves it.  On the empty list it throws
    the not-found error without calling the browser. *)
Theorem find_returns_only_confirmed_elements (b : Browser) (sels : list string)
  (st : State W) :
  (forall el,
     completion (findSearchBar b sels st) = Normal el ->
     exists pre s post w1 w2,
       sels = pre ++ s :: post
       /\ fail_through b pre (world st) = Some w1
       /\ attempt b s w1 = (Confirmed el, w2))
  /\ (forall e,
        completion (findSearchBar b sels st) = Throw e ->
        e = Error "Search bar element not found on the page"
        /\ exists w', fail_through b sels (world st) = Some w')
  /\ findSearchBar b [] st =
       (Throw (Error "Search bar element not found on the page"),
        mkState (world st) (chromedriverProcess st) (browser st) None false,
        [Log "Looking for search bar..."]).
Proof.
  set (st0 := mkState (world st) (chromedriverProcess st) (browser st) None false).
  assert (Hcases :
            (exists w', fail_through b sels (world st) = Some w'
                        /\ completion (findSearchBar b sels st)
                           = Throw (Error "Search bar element not found on the page"))
            \/ (exists pre s post el w1 w2,
                  sels = pre ++ s :: post
                  /\ fail_through b pre (world st) = Some w1
                  /\ attempt b s w1 = (Confirmed el, w2)
                  /\ completion (findSearchBar b sels st) = Normal el)).
  { destruct (fail_through_cases b sels (world st))
      as [[w' Hall] | (pre & s & post & el & w1 & w2 & Hsplit & Hpre & Hs)].
    - left. exists w'. split; [exact Hall|].
      destruct (for_of_fail_through b sels st0 w' Hall)
        as (st1 & ev & Hrun & _ & _ & _ & Hfd & _).
      rewrite (findSearchBar_loop b _ st st1 ev Hrun), Hfd. reflexivity.
    - right. exists pre, s, post, el, w1, w2.
      split; [exact Hsplit|]. split; [exact Hpre|]. split; [exact Hs|].
      destruct (for_of_first_confirmed b pre s post el w1 w2 st0 Hpre Hs)
        as (st1 & ev & Hrun & _ & _ & _ & Hsb & Hfd & _).
      rewrite Hsplit, (findSearchBar_loop b _ st st1 ev Hrun), Hsb, Hfd.
      reflexivity. }
  split; [|split].
  - intros el Hel.
    destruct Hcases as [(w' & _ & Hthrow) | (pre & s & post & el' & w1 & w2 & H1 & H2 & H3 & Hok)].
    + rewrite Hthrow in Hel. discriminate.
    + rewrite Hok in Hel. injection Hel as <-.
      now exists pre, s, post, w1, w2.
  - intros e He.
    destruct Hcases as [(w' & Hall & Hthrow) | (pre & s & post & el' & w1 & w2 & _ & _ & _ & Hok)].
    + rewrite Hthrow in He. injection He as <-.
      split; [reflexivity | now exists w'].
    + rewrite Hok in He. discriminate.
  - reflexivity.
Qed.

End FindTheory.

Section RunResources.

Context {W : Type} {E : Env W}.

Lemma quiet_setup (ev : list Event) :
  forallb (fun x => negb (is_setup x)) ev = true ->
  spawned ev = [] /\ opened ev = [].
Proof.
  induction ev as [|x ev IH]; simpl; [now split|].
  intros H. apply andb_true_iff in H as [Hx Hev]. specialize (IH Hev).
  destruct x as [ | | |c r| ]; try exact IH.
  destruct c; try exact IH; discriminate.
Qed.

Lemma quiet_teardown (ev : list Event) :
  forallb (fun x => negb (is_teardown x)) ev = true ->
  closed ev = [] /\ killed ev = [] /\ existsb is_failed_close ev = false.
Proof.
  induction ev as [|x ev IH]; simpl; [now repeat split|].
  intros H. apply andb_true_iff in H as [Hx Hev]. specialize (IH Hev).
  destruct x as [ | | |c r| ]; try exact IH.
  destruct c; try exact IH; discriminate.
Qed.

Lemma afterPageLoad_no_setup (b : Browser) :
  only (W:=W) (fun ev => negb (is_setup ev)) (afterPageLoad b).
Proof. only_script. Qed.

Lemma testBody_no_teardown :
  only (W:=W) (fun ev => negb (is_teardown ev)) testBody.
Proof. only_script. Qed.

(** The run, event by event: the entry marker, the [try] block, the line
    of the [catch] if the block threw, the [finally] block, the report and
    the exit; the code is 0 when neither block threw. *)
Lemma main_events (w : W) :
  events (main w) =
    Invoke "testAmazonSearchBar"
    :: events (testBody (initial w))
    ++ caught (completion (testBody (initial w)))
    ++ events (cleanup (final (testBody (initial w))))
    ++ [ report (completion (testBody (initial w)))
           (completion (cleanup (final (testBody (initial w)))));
         Exit (exit_code (main w)) ]
  /\ exit_code (main w) =
       match completion (testBody (initial w)),
             completion (cleanup (final (testBody (initial w)))) with
       | Normal _, Normal _ => 0
       | _, _ => 1
       end.
Proof.
  cbv beta iota zeta delta
    [main testAmazonSearchBar try_finally try_catch bind invoke emit
     set_browser console_error throw initial events exit_code completion
     final fst snd world chromedriverProcess browser searchBar searchBarFound
     caught report].
  destruct (testBody _) as [[[[]|e] st1] ev1];
    destruct (cleanup st1) as [[[[]|e'] st2] ev2]; simpl;
    rewrite <- ?app_assoc; split; reflexivity.
Qed.

(** After the [try] block the two handles hold exactly what was brought
    up: the process [start] returned, the session [remote] returned. *)
Lemma testBody_resources (w : W) :
  spawned (events (testBody (initial w))) =
    match chromedriverProcess (final (testBody (initial w))) with
    | Some p => [p]
    | None => []
    end
  /\ opened (events (testBody (initial w))) =
       match browser (final (testBody (initial w))) with
       | Some b => [b]
       | None => []
       end.
Proof.
  script_exec.
  destruct (chromedriver_start _ w) as [[p|e] w1]; cbv beta iota zeta;
    [|split; reflexivity].
  destruct (wdio_remote options _) as [[[b|]|e] w2]; cbv beta iota zeta;
    [|split; reflexivity|split; reflexivity].
  destruct (browser_url b _ w2) as [[[]|e] w3]; cbv beta iota zeta;
    [|split; reflexivity].
  destruct (browser_pause b 3000 w3) as [[[]|e] w4]; cbv beta iota zeta;
    [|split; reflexivity].
  match goal with
  | |- context [afterPageLoad b ?s] =>
      pose proof (afterPageLoad_keeps_handles b s) as [Hc Hb];
      pose proof (quiet_setup _ (afterPageLoad_no_setup b s)) as [Hs Ho];
      destruct (afterPageLoad b s) as [[c st'] ev]
  end.
  destruct st' as [w5 cdp5 br5 sb5 fnd5].
  unfold final, events in *; simpl in *. subst cdp5 br5.
  rewrite Hs, Ho. split; reflexivity.
Qed.

(** The [finally] block, resource by resource. *)
Lemma cleanup_resources (st : State W) :
  spawned (events (cleanup st)) = []
  /\ opened (events (cleanup st)) = []
  /\ closed (events (cleanup st)) =
       match browser st with Some b => [b] | None => [] end
  /\ killed (events (cleanup st)) =
       (if existsb is_failed_close (events (cleanup st)) then []
        else match chromedriverProcess st with
             | Some p => [pid p]
             | None => []
             end)
  /\ (existsb is_failed_close (events (cleanup st)) = false <->
      completion (cleanup st) = Normal tt)
  /\ (forall b e,
        In (Called (CDeleteSession b) (Threw e)) (events (cleanup st)) ->
        completion (cleanup st) = Throw e).
Proof.
  destruct st as [w cdp br sb fnd]. script_exec.
  destruct br as [b|]; cbv beta iota zeta.
  - destruct (browser_deleteSession b w) as [[[]|e] w1]; cbv beta iota zeta.
    + destruct cdp as [p|]; cbv beta iota zeta.
      * destruct (process_kill (pid p) w1) as [[[]|e] w2]; cbv beta iota zeta;
          repeat (split; try reflexivity); try discriminate;
          intros b' e' Hin; simpl in Hin; intuition discriminate.
      * repeat (split; try reflexivity); try discriminate;
          intros b' e' Hin; simpl in Hin; intuition discriminate.
    + repeat (split; try reflexivity); try discriminate.
      intros b' e' [Hin|[]]. now injection Hin as _ <-.
  - destruct cdp as [p|]; cbv beta iota zeta.
    + destruct (process_kill (pid p) w) as [[[]|e] w2]; cbv beta iota zeta;
        repeat (split; try reflexivity); try discriminate;
        intros b' e' Hin; simpl in Hin; intuition discriminate.
    + repeat (split; try reflexivity); try discriminate;
        intros b' e' Hin; simpl in Hin; intuition discriminate.
Qed.

(** X6. Every session that a run opens is closed by that run, once: the
    sessions handed to [deleteSession] are exactly the sessions [remote]
    returned, and there is at most one. *)
Theorem every_opened_session_is_closed_once (w : W) :
  closed (events (main w)) = opened (events (main w))
  /\ (List.length (opened (events (main w))) <= 1)%nat.
Proof.
  destruct (main_events w) as [Hev _].
  destruct (testBody_resources w) as [_ Hopen].
  destruct (quiet_teardown _ (testBody_no_teardown (initial w))) as (Hcl & _ & _).
  destruct (cleanup_resources (final (testBody (initial w))))
    as (_ & Hco & Hcc & _).
  assert (Hc : closed (events (main w)) =
               match browser (final (testBody (initial w))) with
               | Some b => [b] | None => [] end).
  { rewrite Hev. simpl. rewrite !closed_app, Hcl, Hcc.
    destruct (completion (testBody (initial w))) as [[]|e];
      destruct (completion (cleanup (final (testBody (initial w))))) as [[]|e'];
      simpl; now rewrite app_nil_r. }
  assert (Ho : opened (events (main w)) =
               match browser (final (testBody (initial w))) with
               | Some b => [b] | None => [] end).
  { rewrite Hev. simpl. rewrite !opened_app, Hopen, Hco.
    destruct (completion (testBody (initial w))) as [[]|e];
      destruct (completion (cleanup (final (testBody (initial w))))) as [[]|e'];
      simpl; now rewrite app_nil_r. }
  rewrite Hc, Ho. split; [reflexivity|].
  destruct (browser (final (testBody (initial w)))); simpl; lia.
Qed.

(** X7. The termination signals of a run.  A run sends no signal when its
    session close threw, and otherwise one signal to the pid of each
    process [start] returned, of which there is at most one: a started
    server is stopped exactly once unless the session close throws, and
    nothing is ever signalled that the run did not start. *)
Theorem signals_go_to_the_started_process (w : W) :
  killed (events (main w)) =
    (if existsb is_failed_close (events (main w)) then []
     else map pid (spawned (events (main w))))
  /\ (List.length (spawned (events (main w))) <= 1)%nat.
Proof.
  destruct (main_events w) as [Hev _].
  destruct (testBody_resources w) as [Hspawn _].
  destruct (quiet_teardown _ (testBody_no_teardown (initial w))) as (_ & Hk & Hf).
  destruct (cleanup_resources (final (testBody (initial w))))
    as (Hcs & _ & _ & Hck & _).
  assert (Hs : spawned (events (main w)) =
               match chromedriverProcess (final (testBody (initial w))) with
               | Some p => [p] | None => [] end).
  { rewrite Hev. simpl. rewrite !spawned_app, Hspawn, Hcs.
    destruct (completion (testBody (initial w))) as [[]|e];
      destruct (completion (cleanup (final (testBody (initial w))))) as [[]|e'];
      simpl; now rewrite app_nil_r. }
  assert (Hx : existsb is_failed_close (events (main w)) =
               existsb is_failed_close
                 (events (cleanup (final (testBody (initial w)))))).
  { rewrite Hev. simpl. rewrite !existsb_app, Hf.
    destruct (completion (testBody (initial w))) as [[]|e];
      destruct (completion (cleanup (final (testBody (initial w))))) as [[]|e'];
      simpl; now rewrite orb_false_r. }
  assert (Hkl : killed (events (main w)) =
                killed (events (cleanup (final (testBody (initial w)))))).
  { rewrite Hev. simpl. rewrite !killed_app, Hk.
    destruct (completion (testBody (initial w))) as [[]|e];
      destruct (completion (cleanup (final (testBody (initial w))))) as [[]|e'];
      simpl; now rewrite app_nil_r. }
  rewrite Hkl, Hx, Hs, Hck. split.
  - destruct (existsb is_failed_close
                (events (cleanup (final (testBody (initial w))))));
      [reflexivity|].
    now destruct (chromedriverProcess (final (testBody (initial w)))).
  - destruct (chromedriverProcess (final (testBody (initial w)))); simpl; lia.
Qed.

Lemma closed_after_a_close (l1 l2 : list Event) (x : Event) :
  is_deleteSession x = true -> closed (l1 ++ x :: l2) <> [].
Proof.
  intros Hx. rewrite closed_app.
  destruct x as [ | | |c r| ]; try discriminate.
  destruct c; try discriminate. simpl.
  destruct (closed l1); discriminate.
Qed.

(** A list with one session close splits around it in one way only. *)
Lemma split_at_the_close (A B : list Event) (x0 : Event) :
  closed A = [] -> closed B = [] ->
  forall pre x post,
    A ++ x0 :: B = pre ++ x :: post ->
    is_deleteSession x = true ->
    pre = A /\ x = x0 /\ post = B.
Proof.
  intros HA HB. induction A as [|a A IH]; intros pre x post Heq Hx.
  - destruct pre as [|y pre]; simpl in Heq.
    + injection Heq as <- <-. now repeat split.
    + injection Heq as _ ->. exfalso.
      now apply (closed_after_a_close pre post x Hx).
  - destruct pre as [|y pre]; simpl in Heq.
    + injection Heq as -> _. exfalso.
      now apply (closed_after_a_close [] A x Hx).
    + injection Heq as <- Heq.
      assert (HA' : closed A = []).
      { simpl in HA. destruct a as [ | | |c r| ]; try exact HA.
        destruct c; try exact HA. discriminate. }
      destruct (IH HA' pre x post Heq Hx) as (-> & -> & ->).
      now repeat split.
Qed.

(** The [finally] block starts with the session close, when there is a
    session, and sends nothing to the session after it. *)
Lemma cleanup_shape (st : State W) :
  match browser st with
  | None => closed (events (cleanup st)) = []
  | Some b =>
      exists r rest,
        events (cleanup st) = Called (CDeleteSession b) r :: rest
        /\ closed rest = []
        /\ existsb is_session_traffic rest = false
  end.
Proof.
  destruct st as [w cdp br sb fnd]. script_exec.
  destruct br as [b|]; cbv beta iota zeta.
  - destruct (browser_deleteSession b w) as [[[]|e] w1]; cbv beta iota zeta.
    + destruct cdp as [p|]; cbv beta iota zeta.
      * destruct (process_kill (pid p) w1) as [[[]|e] w2]; cbv beta iota zeta;
          eexists _, _; (split; [reflexivity|]); split; reflexivity.
      * eexists _, _; (split; [reflexivity|]); split; reflexivity.
    + eexists _, _; (split; [reflexivity|]); split; reflexivity.
  - destruct cdp as [p|]; cbv beta iota zeta; [|reflexivity].
    destruct (process_kill (pid p) w) as [[[]|e] w2]; reflexivity.
Qed.

Lemma quiet_traffic_tail (body fin : Completion unit) (code : Z) :
  closed (caught body) = [] /\ killed (caught body) = []
  /\ closed [report body fin; Exit code] = []
  /\ existsb is_session_traffic [report body fin; Exit code] = false.
Proof. destruct body as [[]|e], fin as [[]|e']; now repeat split. Qed.

(** X8. The session close is the last thing a run sends to the session,
    and it comes before the server is stopped: wherever [deleteSession]
    occurs among the events of a run, no termination signal and no other
    close precede it, and after it there is no navigation, pause, query,
    script or element call, and no second close. *)
Theorem the_session_close_is_last (w : W) (pre : list Event) (x : Event)
  (post : list Event) :
  events (main w) = pre ++ x :: post ->
  is_deleteSession x = true ->
  killed pre = [] /\ closed pre = []
  /\ closed post = [] /\ existsb is_session_traffic post = false.
Proof.
  intros Hsplit Hx.
  destruct (main_events w) as [Hev _].
  destruct (quiet_teardown _ (testBody_no_teardown (initial w))) as (Hcl & Hk & _).
  destruct (quiet_traffic_tail (completion (testBody (initial w)))
              (completion (cleanup (final (testBody (initial w)))))
              (exit_code (main w))) as (Hcc & Hck & Htc & Htt).
  pose proof (cleanup_shape (final (testBody (initial w)))) as Hshape.
  set (A := Invoke "testAmazonSearchBar"
            :: events (testBody (initial w))
            ++ caught (completion (testBody (initial w)))).
  assert (HA : closed A = [] /\ killed A = []).
  { unfold A; simpl. now rewrite closed_app, killed_app, Hcl, Hk, Hcc, Hck. }
  destruct (browser (final (testBody (initial w)))) as [b|].
  - destruct Hshape as (r & rest & Hcev & Hrc & Hrt).
    assert (Heq : A ++ Called (CDeleteSession b) r
                    :: (rest ++ [ report (completion (testBody (initial w)))
                                    (completion (cleanup (final (testBody (initial w)))));
                                  Exit (exit_code (main w)) ])
                  = pre ++ x :: post).
    { rewrite <- Hsplit, Hev, Hcev. unfold A. simpl.
      now rewrite <- !app_assoc. }
    destruct (split_at_the_close A _ _ (proj1 HA)
                ltac:(rewrite closed_app, Hrc, Htc; reflexivity)
                pre x post Heq Hx) as (-> & _ & ->).
    destruct HA as [HAc HAk].
    split; [exact HAk|]. split; [exact HAc|]. split.
    + now rewrite closed_app, Hrc, Htc.
    + now rewrite existsb_app, Hrt, Htt.
  - exfalso. apply (closed_after_a_close pre post x Hx).
    rewrite <- Hsplit, Hev. simpl.
    now rewrite !closed_app, Hcl, Hcc, Hshape, Htc.
Qed.

Lemma testBody_no_caught_line :
  only (W:=W) (fun ev => negb (is_caught_line ev)) testBody.
Proof. only_script. Qed.

Lemma cleanup_no_caught_line :
  only (W:=W) (fun ev => negb (is_caught_line ev)) cleanup.
Proof. only_script. Qed.

(** X9. Which error a failed run reports.  When the session close throws,
    the run ends by reporting the error of the close, with exit code 1,
    whatever happened before.  Otherwise the error that the [catch] of the
    test logged is the one the run ends by reporting, with exit code 1. *)
Theorem the_reported_error (w : W) :
  (forall b e,
     In (Called (CDeleteSession b) (Threw e)) (events (main w)) ->
     exit_code (main w) = 1
     /\ exists front,
          events (main w) = front ++ [LogError "Test execution failed:" e; Exit 1])
  /\ (forall e,
        In (LogError "Test failed with error:" e) (events (main w)) ->
        existsb is_failed_close (events (main w)) = false ->
        exit_code (main w) = 1
        /\ exists front,
             events (main w) = front ++ [LogError "Test execution failed:" e; Exit 1]).
Proof.
  destruct (main_events w) as [Hev Hcode].
  pose proof (testBody_no_teardown (initial w)) as Hbt.
  pose proof (testBody_no_caught_line (initial w)) as Hbc.
  pose proof (cleanup_no_caught_line (final (testBody (initial w)))) as Hcc.
  destruct (cleanup_resources (final (testBody (initial w))))
    as (_ & _ & _ & _ & Hiff & Hthrow).
  rewrite forallb_forall in Hbt, Hbc, Hcc.
  set (front0 := Invoke "testAmazonSearchBar"
                 :: events (testBody (initial w))
                 ++ caught (completion (testBody (initial w)))
                 ++ events (cleanup (final (testBody (initial w))))).
  assert (Hev' : events (main w) =
                 front0 ++ [ report (completion (testBody (initial w)))
                               (completion (cleanup (final (testBody (initial w)))));
                             Exit (exit_code (main w)) ]).
  { rewrite Hev at 1. unfold front0. simpl. now rewrite <- !app_assoc. }
  split.
  - intros b e Hin.
    assert (Hc : completion (cleanup (final (testBody (initial w)))) = Throw e).
    { apply (Hthrow b). rewrite Hev in Hin.
      destruct Hin as [Hin|Hin]; [discriminate|].
      apply in_app_or in Hin as [Hin|Hin];
        [apply Hbt in Hin; discriminate|].
      apply in_app_or in Hin as [Hin|Hin].
      { destruct (completion (testBody (initial w))) as [[]|e0];
          simpl in Hin; intuition discriminate. }
      apply in_app_or in Hin as [Hin|Hin]; [exact Hin|].
      destruct (completion (testBody (initial w))) as [[]|e0];
        destruct (completion (cleanup (final (testBody (initial w))))) as [[]|e1];
        simpl in Hin; intuition discriminate. }
    assert (Hone : exit_code (main w) = 1)
      by (rewrite Hcode, Hc; now destruct (completion (testBody (initial w))) as [[]|e0]).
    split; [exact Hone|]. exists front0.
    rewrite Hev', Hone, Hc. reflexivity.
  - intros e Hin Hclean.
    assert (Hb : completion (testBody (initial w)) = Throw e).
    { rewrite Hev in Hin.
      destruct Hin as [Hin|Hin]; [discriminate|].
      apply in_app_or in Hin as [Hin|Hin];
        [apply Hbc in Hin; discriminate|].
      apply in_app_or in Hin as [Hin|Hin].
      { destruct (completion (testBody (initial w))) as [[]|e0];
          simpl in Hin; [contradiction|].
        destruct Hin as [Hin|[]]. now injection Hin as ->. }
      apply in_app_or in Hin as [Hin|Hin];
        [apply Hcc in Hin; discriminate|].
      destruct (completion (testBody (initial w))) as [[]|e0];
        destruct (completion (cleanup (final (testBody (initial w))))) as [[]|e1];
        simpl in Hin; intuition discriminate. }
    assert (Hc : completion (cleanup (final (testBody (initial w)))) = Normal tt).
    { apply Hiff. rewrite Hev in Hclean. simpl in Hclean.
      apply existsb_false_app in Hclean as [_ Hclean].
      apply existsb_false_app in Hclean as [_ Hclean].
      now apply existsb_false_app in Hclean as [Hclean _]. }
    assert (Hone : exit_code (main w) = 1) by (now rewrite Hcode, Hb).
    split; [exact Hone|]. exists front0.
    rewrite Hev', Hone, Hb, Hc. reflexivity.
Qed.

End RunResources.

Section PassTheory.

Context {W : Type} {E : Env W}.

(** A block whose normal completion shows as a returned 30 s pause. *)
Lemma hold_bind {A} (m : Script W A) (k : A -> Script W unit) :
  only (fun ev => negb (is_hold_returned ev)) m ->
  (forall a st, completion (k a st) = Normal tt <->
                existsb is_hold_returned (events (k a st)) = true) ->
  forall st, completion (bind m k st) = Normal tt <->
             existsb is_hold_returned (events (bind m k st)) = true.
Proof.
  intros Hm Hk st. rewrite bind_run.
  pose proof (none_of _ _ (Hm st)) as Hq.
  destruct (m st) as [[[a|e] st1] ev1]; unfold events in Hq; simpl in Hq.
  - unfold completion at 1, events at 1; simpl.
    rewrite existsb_app, Hq; simpl.
    destruct (k a st1) as [[c st2] ev2] eqn:Hrun.
    specialize (Hk a st1). rewrite Hrun in Hk. exact Hk.
  - unfold completion, events; simpl. rewrite Hq. split; discriminate.
Qed.

Lemma holdOpen_hold (b : Browser) (st : State W) :
  completion (holdOpen b st) = Normal tt <->
  existsb is_hold_returned (events (holdOpen b st)) = true.
Proof.
  destruct st as [w cdp br sb fnd]. unfold holdOpen. script_exec.
  destruct (browser_pause b 30000 w) as [[[]|e] w1]; cbv beta iota zeta.
  - split; reflexivity.
  - split; discriminate.
Qed.

Lemma afterPageLoad_hold (b : Browser) (st : State W) :
  completion (afterPageLoad b st) = Normal tt <->
  existsb is_hold_returned (events (afterPageLoad b st)) = true.
Proof.
  revert st. unfold afterPageLoad.
  apply hold_bind; [only_script|]. intros _.
  apply hold_bind; [only_script|]. intros el.
  apply hold_bind; [only_script|]. intros _.
  apply hold_bind; [only_script|]. intros _.
  apply holdOpen_hold.
Qed.

Lemma testBody_hold (st : State W) :
  completion (testBody st) = Normal tt <->
  existsb is_hold_returned (events (testBody st)) = true.
Proof.
  destruct st as [w cdp br sb fnd]. script_exec.
  destruct (chromedriver_start _ w) as [[p|e] w1]; cbv beta iota zeta;
    [|split; discriminate].
  destruct (wdio_remote options _) as [[[b|]|e] w2]; cbv beta iota zeta;
    [|split; discriminate|split; discriminate].
  destruct (browser_url b _ w2) as [[[]|e] w3]; cbv beta iota zeta;
    [|split; discriminate].
  destruct (browser_pause b 3000 w3) as [[[]|e] w4]; cbv beta iota zeta;
    [|split; discriminate].
  match goal with
  | |- context [afterPageLoad b ?s] =>
      pose proof (afterPageLoad_hold b s) as Hrest;
      destruct (afterPageLoad b s) as [[c st'] ev]
  end.
  unfold completion, events in Hrest; simpl in Hrest. exact Hrest.
Qed.

Lemma cleanup_no_hold :
  only (W:=W) (fun ev => negb (is_hold_returned ev)) cleanup.
Proof. only_script. Qed.

(** X10. When a run passes.  The exit code is 0 exactly when the 30 s
    observation pause at the end of the test returned and the session
    close did not throw; in every other run it is 1. *)
Theorem run_passes_iff_hold_returned_and_close_did_not_throw (w : W) :
  (exit_code (main w) = 0 <->
   existsb is_hold_returned (events (main w)) = true
   /\ existsb is_failed_close (events (main w)) = false)
  /\ (exit_code (main w) = 0 \/ exit_code (main w) = 1).
Proof.
  destruct (main_events w) as [Hev Hcode].
  pose proof (testBody_hold (initial w)) as Hbody.
  destruct (quiet_teardown _ (testBody_no_teardown (initial w))) as (_ & _ & Hbf).
  pose proof (none_of _ _ (cleanup_no_hold (final (testBody (initial w))))) as Hch.
  destruct (cleanup_resources (final (testBody (initial w))))
    as (_ & _ & _ & _ & Hiff & _).
  assert (Hh : existsb is_hold_returned (events (main w)) =
               existsb is_hold_returned (events (testBody (initial w)))).
  { rewrite Hev. simpl. rewrite !existsb_app, Hch.
    destruct (completion (testBody (initial w))) as [[]|e];
      destruct (completion (cleanup (final (testBody (initial w))))) as [[]|e'];
      simpl; now rewrite ?orb_false_r. }
  assert (Hf : existsb is_failed_close (events (main w)) =
               existsb is_failed_close
                 (events (cleanup (final (testBody (initial w)))))).
  { rewrite Hev. simpl. rewrite !existsb_app, Hbf.
    destruct (completion (testBody (initial w))) as [[]|e];
      destruct (completion (cleanup (final (testBody (initial w))))) as [[]|e'];
      simpl; now rewrite ?orb_false_r. }
  rewrite Hh, Hf, Hcode. split.
  - split.
    + intros Hzero.
      destruct (completion (testBody (initial w))) as [[]|e] eqn:Hb; [|discriminate].
      destruct (completion (cleanup (final (testBody (initial w))))) as [[]|e'] eqn:Hc;
        [|discriminate].
      split; [now apply Hbody | now apply Hiff].
    + intros [Hhold Hclose].
      apply Hbody in Hhold. apply Hiff in Hclose.
      now rewrite Hhold, Hclose.
  - destruct (completion (testBody (initial w))) as [[]|e];
      destruct (completion (cleanup (final (testBody (initial w))))) as [[]|e'];
      auto.
Qed.

(** One pass through the loop body sets [searchBarFound] only after
    acquiring an element whose re-check said true. *)
Lemma trySelector_found (b : Browser) (sel : string) (st : State W) :
  searchBarFound (final (trySelector b sel st)) = true ->
  searchBarFound st = true
  \/ exists el,
       In (Called (CQuery b sel) (Returned (VElement el)))
         (events (trySelector b sel st))
       /\ In (Called (CIsExisting el) (Returned (VBool true)))
            (events (trySelector b sel st)).
Proof.
  unfold trySelector, trySelectorBody, query, waitForExist,
    execute_scrollIntoView, isExisting.
  destruct st as [w cdp br sb fnd]. script_exec.
  destruct (browser_query b sel w) as [[el|e] w1]; cbv beta iota zeta;
    [|now left].
  destruct (element_waitForExist el 10000 w1) as [[[]|e] w2]; cbv beta iota zeta;
    [|now left].
  destruct (browser_execute_scroll b el w2) as [[[]|e] w3]; cbv beta iota zeta;
    [|now left].
  destruct (browser_pause b 1000 w3) as [[[]|e] w4]; cbv beta iota zeta;
    [|now left].
  destruct (element_isExisting el w4) as [[[|]|e] w5]; cbv beta iota zeta;
    [|now left|now left].
  intros _. right. exists el. simpl. split.
  - right. now left.
  - do 6 right. now left.
Qed.

Lemma for_of_found (b : Browser) (sels : list string) :
  forall st : State W,
    searchBarFound st = false ->
    searchBarFound (final (for_of sels (trySelector b) st)) = true ->
    exists s el,
      In s sels
      /\ In (Called (CQuery b s) (Returned (VElement el)))
           (events (for_of sels (trySelector b) st))
      /\ In (Called (CIsExisting el) (Returned (VBool true)))
           (events (for_of sels (trySelector b) st)).
Proof.
  induction sels as [|sel rest IH]; intros st Hst Hfound; simpl in *.
  - unfold final in Hfound; simpl in Hfound. congruence.
  - rewrite bind_run in Hfound |- *.
    pose proof (trySelector_found b sel st) as Hone.
    destruct (trySelector b sel st) as [[[ctl|e] st1] ev1];
      unfold final, events in Hone, Hfound |- *; simpl in Hone, Hfound |- *.
    + destruct ctl.
      * simpl in Hfound. destruct (Hone Hfound) as [Habs | (el & Hq & Hx)];
          [congruence|].
        exists sel, el. split; [now left|].
        split; apply in_or_app; now left.
      * destruct (searchBarFound st1) eqn:Hst1.
        -- destruct (Hone eq_refl) as [Habs | (el & Hq & Hx)]; [congruence|].
           exists sel, el. split; [now left|].
           split; apply in_or_app; now left.
        -- destruct (IH st1 Hst1 Hfound) as (s & el & Hin & Hq & Hx).
           exists s, el. split; [now right|].
           split; apply in_or_app; now right.
    + destruct (Hone Hfound) as [Habs | (el & Hq & Hx)]; [congruence|].
      exists sel, el. split; [now left|]. now split.
Qed.

(** [find] returns only after one of its selectors was acquired and
    re-checked as existing. *)
Lemma findSearchBar_found (b : Browser) (sels : list string) (st : State W)
  (el0 : Element) :
  completion (findSearchBar b sels st) = Normal el0 ->
  exists s el,
    In s sels
    /\ In (Called (CQuery b s) (Returned (VElement el)))
         (events (findSearchBar b sels st))
    /\ In (Called (CIsExisting el) (Returned (VBool true)))
         (events (findSearchBar b sels st)).
Proof.
  set (st0 := mkState (world st) (chromedriverProcess st) (browser st) None false).
  pose proof (for_of_trySelector_normal b sels st0) as Hn.
  pose proof (for_of_found b sels st0 eq_refl) as Hf.
  destruct (for_of sels (trySelector b) st0) as [[c st1] ev] eqn:Hrun.
  unfold completion in Hn; simpl in Hn; subst c.
  rewrite (findSearchBar_loop b sels st st1 ev Hrun).
  unfold completion, events, final in *; simpl in *.
  destruct (searchBarFound st1); [|discriminate].
  intros _. destruct (Hf eq_refl) as (s & el & Hin & Hq & Hx).
  exists s, el. split; [exact Hin|]. split; now right.
Qed.

(** The blocks after the page-load pause complete normally only after
    [find] returned. *)
Lemma afterPageLoad_found (b : Browser) (st : State W) :
  completion (afterPageLoad b st) = Normal tt ->
  exists s el,
    In s selectors
    /\ In (Called (CQuery b s) (Returned (VElement el)))
         (events (afterPageLoad b st))
    /\ In (Called (CIsExisting el) (Returned (VBool true)))
         (events (afterPageLoad b st)).
Proof.
  unfold afterPageLoad. rewrite bind_run.
  destruct (detectPageStructure b st) as [[[[]|e] s1] e1];
    [|unfold completion; simpl; discriminate].
  rewrite bind_run.
  pose proof (findSearchBar_found b selectors s1) as Hfind.
  destruct (findSearchBar b selectors s1) as [[[el0|e] s2] e2];
    [|unfold completion; simpl; discriminate].
  intros _. destruct (Hfind el0 eq_refl) as (s & el & Hin & Hq & Hx).
  unfold events in *; simpl in *.
  exists s, el. split; [exact Hin|].
  split; apply in_or_app; right; apply in_or_app; now left.
Qed.

(** X11. What a pass means.  A run exits with code 0 only if, in that run,
    one of the five selectors of the script was acquired on the opened
    session and the re-check of the acquired element said that it exists. *)
Theorem a_passing_run_found_the_search_bar (w : W) :
  exit_code (main w) = 0 ->
  exists b s el,
    opened (events (main w)) = [b]
    /\ In s selectors
    /\ In (Called (CQuery b s) (Returned (VElement el))) (events (main w))
    /\ In (Called (CIsExisting el) (Returned (VBool true))) (events (main w)).
Proof.
  intros Hzero.
  destruct (main_events w) as [Hev Hcode].
  assert (Hb : completion (testBody (initial w)) = Normal tt).
  { rewrite Hcode in Hzero.
    now destruct (completion (testBody (initial w))) as [[]|e]. }
  destruct (cleanup_resources (final (testBody (initial w))))
    as (_ & Hco & _).
  assert (Hbody : exists b s el,
             opened (events (testBody (initial w))) = [b]
             /\ In s selectors
             /\ In (Called (CQuery b s) (Returned (VElement el)))
                  (events (testBody (initial w)))
             /\ In (Called (CIsExisting el) (Returned (VBool true)))
                  (events (testBody (initial w)))).
  { clear Hev Hcode Hzero Hco. revert Hb. script_exec.
    destruct (chromedriver_start _ w) as [[p|e] w1]; cbv beta iota zeta;
      [|discriminate].
    destruct (wdio_remote options _) as [[[b|]|e] w2]; cbv beta iota zeta;
      [|discriminate|discriminate].
    destruct (browser_url b _ w2) as [[[]|e] w3]; cbv beta iota zeta;
      [|discriminate].
    destruct (browser_pause b 3000 w3) as [[[]|e] w4]; cbv beta iota zeta;
      [|discriminate].
    match goal with
    | |- context [afterPageLoad b ?s] =>
        pose proof (afterPageLoad_found b s) as Hrest;
        pose proof (quiet_setup _ (afterPageLoad_no_setup b s)) as [_ Ho];
        destruct (afterPageLoad b s) as [[c st'] ev]
    end.
    unfold completion, events in *; simpl in *.
    intros Hc. destruct (Hrest Hc) as (s & el & Hin & Hq & Hx).
    exists b, s, el. rewrite Ho. split; [reflexivity|]. split; [exact Hin|].
    split; do 13 right; assumption. }
  destruct Hbody as (b & s & el & Hopen & Hin & Hq & Hx).
  exists b, s, el. rewrite Hev. simpl.
  rewrite !opened_app, Hopen, Hco, Hb. simpl.
  split; [now destruct (completion (cleanup (final (testBody (initial w))))) as [[]|e]|].
  split; [exact Hin|].
  split; right; apply in_or_app; now left.
Qed.

End PassTheory.

Section FailureRuns.

Context {W : Type} {E : Env W}.

(** X12. When the server starts and [remote] then throws [e]: the run
    never navigates and never calls [deleteSession], since the [browser]
    variable was not assigned; it still stops the server, with one signal
    to the pid of the started process; and it reports [e] with exit code 1,
    whether or not that signal could be delivered. *)
Theorem session_open_failure_run (w w1 w2 : W) (p : ChildProcess) (e : JsError) :
  chromedriver_start ["--port=9515"] w = (Normal p, w1) ->
  wdio_remote options (timer_elapse 1000 w1) = (Throw e, w2) ->
  exit_code (main w) = 1
  /\ exists r,
       events (main w) =
         [ Invoke "testAmazonSearchBar";
           Log "Starting WebdriverIO test...";
           Invoke "startChromeDriver";
           Log "Starting ChromeDriver...";
           Called (CStart ["--port=9515"]) (Returned (VProcess p));
           Log "ChromeDriver started successfully on port 9515";
           Called (CSetTimeout 1000) (Returned VUndefined);
           Called (CRemote options) (Threw e);
           LogError "Test failed with error:" e;
           Invoke "stopChromeDriver";
           Called (CKill (pid p)) r;
           stop_line r;
           LogError "Test execution failed:" e;
           Exit 1 ].
Proof.
  intros Hstart Hremote. script_exec.
  rewrite Hstart; cbv beta iota zeta. rewrite Hremote; cbv beta iota zeta.
  destruct (process_kill (pid p) w2) as [[[]|e'] w3]; cbv beta iota zeta.
  - split; [reflexivity|]. now exists (Returned (VBool true)).
  - split; [reflexivity|]. now exists (Threw e').
Qed.

(** X13. When [remote] returns no browser object: the script logs
    "Browser initialized" all the same, then throws its own error; no
    navigation and no [deleteSession] follow, the server is stopped with
    one signal, and the run reports that error with exit code 1. *)
Theorem missing_browser_run (w w1 w2 : W) (p : ChildProcess) :
  chromedriver_start ["--port=9515"] w = (Normal p, w1) ->
  wdio_remote options (timer_elapse 1000 w1) = (Normal None, w2) ->
  exit_code (main w) = 1
  /\ exists r,
       events (main w) =
         [ Invoke "testAmazonSearchBar";
           Log "Starting WebdriverIO test...";
           Invoke "startChromeDriver";
           Log "Starting ChromeDriver...";
           Called (CStart ["--port=9515"]) (Returned (VProcess p));
           Log "ChromeDriver started successfully on port 9515";
           Called (CSetTimeout 1000) (Returned VUndefined);
           Called (CRemote options) (Returned VUndefined);
           Log "Browser initialized";
           LogError "Test failed with error:" (Error "Failed to initialize browser");
           Invoke "stopChromeDriver";
           Called (CKill (pid p)) r;
           stop_line r;
           LogError "Test execution failed:" (Error "Failed to initialize browser");
           Exit 1 ].
Proof.
  intros Hstart Hremote. script_exec.
  rewrite Hstart; cbv beta iota zeta. rewrite Hremote; cbv beta iota zeta.
  destruct (process_kill (pid p) w2) as [[[]|e'] w3]; cbv beta iota zeta.
  - split; [reflexivity|]. now exists (Returned (VBool true)).
  - split; [reflexivity|]. now exists (Threw e').
Qed.

(** X14. When navigation throws [e] and the session close then returns:
    the page-load pause and the locator are skipped, the session is closed,
    then the server is stopped with one signal to the started process, in
    that order, and the run reports [e] with exit code 1. *)
Theorem navigation_failure_run (w w1 w2 w3 w4 : W) (p : ChildProcess)
  (b : Browser) (e : JsError) :
  chromedriver_start ["--port=9515"] w = (Normal p, w1) ->
  wdio_remote options (timer_elapse 1000 w1) = (Normal (Some b), w2) ->
  browser_url b "https://www.amazon.com" w2 = (Throw e, w3) ->
  browser_deleteSession b w3 = (Normal tt, w4) ->
  exit_code (main w) = 1
  /\ exists r,
       events (main w) =
         Invoke "testAmazonSearchBar"
         :: before_navigation p b
         ++ [ Called (CUrl b "https://www.amazon.com") (Threw e);
              LogError "Test failed with error:" e;
              Called (CDeleteSession b) (Returned VUndefined);
              Log "Browser session closed";
              Invoke "stopChromeDriver";
              Called (CKill (pid p)) r;
              stop_line r;
              LogError "Test execution failed:" e;
              Exit 1 ].
Proof.
  intros Hstart Hremote Hurl Hclose. script_exec.
  rewrite Hstart; cbv beta iota zeta. rewrite Hremote; cbv beta iota zeta.
  rewrite Hurl; cbv beta iota zeta. rewrite Hclose; cbv beta iota zeta.
  destruct (process_kill (pid p) w4) as [[[]|e'] w5]; cbv beta iota zeta.
  - split; [reflexivity|]. now exists (Returned (VBool true)).
  - split; [reflexivity|]. now exists (Threw e').
Qed.

End FailureRuns.

Section StartupTheory.

Context {W : Type} {E : Env W}.

Lemma epilogue_not_remote (ev : list Event) (o : RemoteOptions) (r : Reply) :
  forallb is_epilogue ev = true -> ~ In (Called (CRemote o) r) ev.
Proof.
  rewrite forallb_forall. intros H Hin. apply H in Hin. discriminate.
Qed.

(** X15. The session is opened only on a started server.  Whenever a run
    calls [remote], with whatever answer, the run began with [start]
    returning a process on port 9515 and the 1000 ms settle delay, and the
    call, made once and with the [options] of the script, is the next
    thing after them. *)
Theorem session_is_opened_only_after_the_server_started (w : W)
  (o : RemoteOptions) (r : Reply) :
  In (Called (CRemote o) r) (events (main w)) ->
  o = options
  /\ exists p post,
       events (main w) =
         [ Invoke "testAmazonSearchBar";
           Log "Starting WebdriverIO test...";
           Invoke "startChromeDriver";
           Log "Starting ChromeDriver...";
           Called (CStart ["--port=9515"]) (Returned (VProcess p));
           Log "ChromeDriver started successfully on port 9515";
           Called (CSetTimeout 1000) (Returned VUndefined);
           Called (CRemote options) r ] ++ post
       /\ forall o' r', ~ In (Called (CRemote o') r') post.
Proof.
  intros Hin.
  destruct (main_epilogue w) as (rest & Hev & Hrest).
  rewrite Hev in Hin |- *. clear Hev.
  destruct Hin as [Hin|Hin]; [discriminate|].
  assert (Hbody :
            (forall o' r', ~ In (Called (CRemote o') r') (events (testBody (initial w))))
            \/ exists p r0 post,
                 events (testBody (initial w)) =
                   [ Log "Starting WebdriverIO test...";
                     Invoke "startChromeDriver";
                     Log "Starting ChromeDriver...";
                     Called (CStart ["--port=9515"]) (Returned (VProcess p));
                     Log "ChromeDriver started successfully on port 9515";
                     Called (CSetTimeout 1000) (Returned VUndefined);
                     Called (CRemote options) r0 ] ++ post
                 /\ forall o' r', ~ In (Called (CRemote o') r') post).
  { clear Hin. script_exec.
    destruct (chromedriver_start _ w) as [[p|e] w1]; cbv beta iota zeta.
    2:{ left. intros o' r' Hin. simpl in Hin. intuition discriminate. }
    right. exists p.
    destruct (wdio_remote options _) as [[[b|]|e] w2]; cbv beta iota zeta.
    - destruct (browser_url b _ w2) as [[[]|e] w3]; cbv beta iota zeta.
      + destruct (browser_pause b 3000 w3) as [[[]|e] w4]; cbv beta iota zeta.
        * match goal with
          | |- context [afterPageLoad b ?s] =>
              pose proof (afterPageLoad_no_setup b s) as Hq;
              destruct (afterPageLoad b s) as [[c st'] ev]
          end.
          unfold events in Hq; simpl in Hq. rewrite forallb_forall in Hq.
          eexists _, _. split; [reflexivity|].
          intros o' r' Hin. simpl in Hin.
          destruct Hin as [Hin|[Hin|[Hin|[Hin|[Hin|[Hin|Hin]]]]]];
            try discriminate.
          apply Hq in Hin. discriminate.
        * eexists _, _. split; [reflexivity|].
          intros o' r' Hin. simpl in Hin. intuition discriminate.
      + eexists _, _. split; [reflexivity|].
        intros o' r' Hin. simpl in Hin. intuition discriminate.
    - eexists _, _. split; [reflexivity|].
      intros o' r' Hin. simpl in Hin. intuition discriminate.
    - eexists _, _. split; [reflexivity|].
      intros o' r' Hin. simpl in Hin. intuition discriminate. }
  apply in_app_or in Hin as [Hin|Hin];
    [|exfalso; exact (epilogue_not_remote rest o r Hrest Hin)].
  destruct Hbody as [Hnone | (p & r0 & post & Hb & Hpost)];
    [exfalso; exact (Hnone o r Hin)|].
  rewrite Hb in Hin |- *. simpl in Hin.
  destruct Hin as [Hin|[Hin|[Hin|[Hin|[Hin|[Hin|[Hin|Hin]]]]]]];
    try discriminate.
  - injection Hin as <- <-. split; [reflexivity|].
    exists p, (post ++ rest). split; [reflexivity|].
    intros o' r' Hin. apply in_app_or in Hin as [Hin|Hin].
    + exact (Hpost o' r' Hin).
    + exact (epilogue_not_remote rest o' r' Hrest Hin).
  - exfalso. exact (Hpost o r Hin).
Qed.

End StartupTheory.

Section OutcomeTheory.

Context {W : Type} {E : Env W}.

Lemma testBody_no_exit : only (W:=W) (fun ev => negb (is_exit ev)) testBody.
Proof. only_script. Qed.

Lemma cleanup_no_exit : only (W:=W) (fun ev => negb (is_exit ev)) cleanup.
Proof. only_script. Qed.

(** The blocks after the page-load pause complete normally only after the
    success report was logged. *)
Lemma afterPageLoad_success_line (b : Browser) (st : State W) :
  completion (afterPageLoad b st) = Normal tt ->
  In (Log "✅ Test completed successfully!") (events (afterPageLoad b st)).
Proof.
  unfold afterPageLoad. rewrite bind_run.
  destruct (detectPageStructure b st) as [[[[]|e] s1] e1];
    [|unfold completion; simpl; discriminate].
  rewrite bind_run.
  destruct (findSearchBar b selectors s1) as [[[el|e] s2] e2];
    [|unfold completion; simpl; discriminate].
  rewrite bind_run.
  destruct (checkVisibility el s2) as [[[[]|e] s3] e3];
    [|unfold completion; simpl; discriminate].
  destruct (inspect_and_hold el b s3) as (r & Hev & _).
  intros _. unfold events at 1; simpl.
  apply in_or_app; right. apply in_or_app; right. apply in_or_app; right.
  rewrite Hev. apply in_or_app; right. now left.
Qed.

(** A [try] block that completes normally went through every stage:
    navigation returned, one of the selectors of the script was acquired
    and re-checked as existing, and the success report was logged. *)
Lemma testBody_success (st : State W) :
  completion (testBody st) = Normal tt ->
  existsb is_navigated (events (testBody st)) = true
  /\ In (Log "✅ Test completed successfully!") (events (testBody st))
  /\ exists b s el,
       In s selectors
       /\ In (Called (CQuery b s) (Returned (VElement el))) (events (testBody st))
       /\ In (Called (CIsExisting el) (Returned (VBool true))) (events (testBody st)).
Proof.
  destruct st as [w cdp br sb fnd]. script_exec.
  destruct (chromedriver_start _ w) as [[p|e] w1]; cbv beta iota zeta;
    [|discriminate].
  destruct (wdio_remote options _) as [[[b|]|e] w2]; cbv beta iota zeta;
    [|discriminate|discriminate].
  destruct (browser_url b _ w2) as [[[]|e] w3]; cbv beta iota zeta;
    [|discriminate].
  destruct (browser_pause b 3000 w3) as [[[]|e] w4]; cbv beta iota zeta;
    [|discriminate].
  match goal with
  | |- context [afterPageLoad b ?s] =>
      pose proof (afterPageLoad_found b s) as Hfound;
      pose proof (afterPageLoad_success_line b s) as Hline;
      destruct (afterPageLoad b s) as [[c st'] ev]
  end.
  unfold completion, events in *; simpl in *.
  intros Hc. destruct (Hfound Hc) as (s & el & Hin & Hq & Hx).
  split; [reflexivity|]. split.
  - do 13 right. exact (Hline Hc).
  - exists b, s, el. split; [exact Hin|]. split; do 13 right; assumption.
Qed.

(** A session close that threw, anywhere in the run, is the completion of
    the [finally] block. *)
Lemma failed_close_is_the_completion_of_cleanup (w : W) (b : Browser) (e : JsError) :
  In (Called (CDeleteSession b) (Threw e)) (events (main w)) ->
  completion (cleanup (final (testBody (initial w)))) = Throw e.
Proof.
  intros Hin.
  destruct (main_events w) as [Hev _].
  pose proof (testBody_no_teardown (initial w)) as Hbt.
  rewrite forallb_forall in Hbt.
  destruct (cleanup_resources (final (testBody (initial w))))
    as (_ & _ & _ & _ & _ & Hthrow).
  apply (Hthrow b). rewrite Hev in Hin.
  destruct Hin as [Hin|Hin]; [discriminate|].
  apply in_app_or in Hin as [Hin|Hin]; [apply Hbt in Hin; discriminate|].
  apply in_app_or in Hin as [Hin|Hin].
  { destruct (completion (testBody (initial w))) as [[]|e0];
      simpl in Hin; intuition discriminate. }
  apply in_app_or in Hin as [Hin|Hin]; [exact Hin|].
  destruct (completion (testBody (initial w))) as [[]|e0];
    destruct (completion (cleanup (final (testBody (initial w))))) as [[]|e1];
    simpl in Hin; intuition discriminate.
Qed.

(** C9, on the runs that break it. Take a run in which every stage of the
    test succeeded, up to and including the 30 s observation pause, and in
    which the session close then throws [e].  The run went through every
    stage: navigation returned, one of the selectors of the script was
    acquired and re-checked as existing, the success report was logged and
    the [try] block completed normally.  Yet [process.exit] is called once,
    with code 1, after the error of the close was reported as the failure
    of the run. *)
Theorem successful_test_exits_1_when_the_close_throws (w : W) (b : Browser)
  (e : JsError) :
  existsb is_hold_returned (events (main w)) = true ->
  In (Called (CDeleteSession b) (Threw e)) (events (main w)) ->
  completion (testBody (initial w)) = Normal tt
  /\ existsb is_navigated (events (main w)) = true
  /\ (exists b' s el,
        In s selectors
        /\ In (Called (CQuery b' s) (Returned (VElement el))) (events (main w))
        /\ In (Called (CIsExisting el) (Returned (VBool true))) (events (main w)))
  /\ In (Log "✅ Test completed successfully!") (events (main w))
  /\ exit_code (main w) = 1
  /\ exits (events (main w)) = [1]
  /\ exists front,
       events (main w) = front ++ [LogError "Test execution failed:" e; Exit 1].
Proof.
  intros Hhold Hclose.
  pose proof (failed_close_is_the_completion_of_cleanup w b e Hclose) as Hc.
  destruct (main_events w) as [Hev Hcode].
  pose proof (none_of _ _ (cleanup_no_hold (final (testBody (initial w))))) as Hch.
  assert (Hb : completion (testBody (initial w)) = Normal tt).
  { apply testBody_hold. rewrite Hev in Hhold. simpl in Hhold.
    rewrite !existsb_app, Hch in Hhold.
    destruct (existsb is_hold_returned (events (testBody (initial w))));
      [reflexivity|].
    destruct (completion (testBody (initial w))) as [[]|e0];
      rewrite Hc in Hhold; simpl in Hhold; discriminate. }
  destruct (testBody_success (initial w) Hb) as (Hnav & Hline & b' & s & el & Hs & Hq & Hx).
  assert (Hone : exit_code (main w) = 1) by (now rewrite Hcode, Hb, Hc).
  assert (Hin : forall x, In x (events (testBody (initial w))) ->
                          In x (events (main w))).
  { intros x Hx'. rewrite Hev. right. apply in_or_app; now left. }
  split; [exact Hb|]. split.
  { rewrite Hev. simpl. now rewrite existsb_app, Hnav. }
  split; [exists b', s, el; split; [exact Hs|]; split; now apply Hin|].
  split; [now apply Hin|]. split; [exact Hone|]. split.
  - pose proof (no_exit_exits _ (testBody_no_exit (initial w))) as Hxb.
    pose proof (no_exit_exits _ (cleanup_no_exit (final (testBody (initial w))))) as Hxc.
    rewrite Hev, Hone, Hb, Hc. simpl. rewrite !exits_app, Hxb, Hxc. reflexivity.
  - exists (Invoke "testAmazonSearchBar"
            :: events (testBody (initial w))
            ++ events (cleanup (final (testBody (initial w))))).
    rewrite Hev at 1. rewrite Hone, Hb, Hc. simpl.
    now rewrite <- !app_assoc.
Qed.

End OutcomeTheory.

(** * The further properties on explicit runs *)

(** X1 on a machine where ChromeDriver starts as process 4242. *)
Lemma start_then_stop_signals_the_started_process_witness :
  chromedriver_start ["--port=9515"] (sim (page_with []))
    = (Normal (mkChildProcess 4242), mkSim (page_with []) true)
  /\ completion (stopChromeDriver (final (startChromeDriver (initial (sim (page_with []))))))
     = Normal tt
  /\ killed (events (stopChromeDriver (final (startChromeDriver (initial (sim (page_with [])))))))
     = [4242].
Proof.
  assert (H : chromedriver_start ["--port=9515"] (world (initial (sim (page_with []))))
              = (Normal (mkChildProcess 4242), mkSim (page_with []) true))
    by reflexivity.
  split; [exact H|].
  exact (proj2 (start_then_stop_signals_the_started_process _ _ _ H)).
Defined.

(** X2 on a machine where ChromeDriver cannot be spawned. *)
Lemma failed_start_is_rethrown_and_records_nothing_witness :
  chromedriver_start ["--port=9515"] (sim page_start_fails)
    = (Throw (Error "spawn chromedriver ENOENT"), sim page_start_fails)
  /\ completion (startChromeDriver (initial (sim page_start_fails)))
     = Throw (Error "spawn chromedriver ENOENT")
  /\ killed (events (stopChromeDriver
                       (final (startChromeDriver (initial (sim page_start_fails))))))
     = [].
Proof.
  assert (H : chromedriver_start ["--port=9515"] (world (initial (sim page_start_fails)))
              = (Throw (Error "spawn chromedriver ENOENT"), sim page_start_fails))
    by reflexivity.
  split; [exact H|].
  destruct (failed_start_is_rethrown_and_records_nothing _ _ _ H)
    as (Hrun & _ & Hkill).
  split; [now rewrite Hrun | exact (Hkill eq_refl)].
Defined.

(** X5 on a page where only [#b] matches. *)
Lemma find_returns_only_confirmed_elements_witness :
  completion (findSearchBar s1 ["#a"; "#b"] (initial (sim (page_with ["#b"]))))
    = Normal (ElementRef "#b")
  /\ exists pre s post w1 w2,
       ["#a"; "#b"] = pre ++ s :: post
       /\ fail_through s1 pre (sim (page_with ["#b"])) = Some w1
       /\ attempt s1 s w1 = (Confirmed (ElementRef "#b"), w2).
Proof.
  assert (H : completion (findSearchBar s1 ["#a"; "#b"] (initial (sim (page_with ["#b"]))))
              = Normal (ElementRef "#b")) by reflexivity.
  split; [exact H|].
  exact (proj1 (find_returns_only_confirmed_elements s1 ["#a"; "#b"]
                  (initial (sim (page_with ["#b"])))) _ H).
Defined.

(** X8 on the run whose navigation fails: the events around its close. *)
Lemma the_session_close_is_last_witness :
  events (main (sim page_navigation_fails)) =
    (Invoke "testAmazonSearchBar"
     :: before_navigation (mkChildProcess 4242) s1
     ++ [ Called (CUrl s1 "https://www.amazon.com")
            (Threw (Error "net::ERR_INTERNET_DISCONNECTED"));
          LogError "Test failed with error:" (Error "net::ERR_INTERNET_DISCONNECTED") ])
    ++ Called (CDeleteSession s1) (Returned VUndefined)
    :: [ Log "Browser session closed";
         Invoke "stopChromeDriver";
         Called (CKill 4242) (Returned (VBool true));
         Log "ChromeDriver stopped";
         LogError "Test execution failed:" (Error "net::ERR_INTERNET_DISCONNECTED");
         Exit 1 ]
  /\ killed (Invoke "testAmazonSearchBar"
             :: before_navigation (mkChildProcess 4242) s1
             ++ [ Called (CUrl s1 "https://www.amazon.com")
                    (Threw (Error "net::ERR_INTERNET_DISCONNECTED"));
                  LogError "Test failed with error:"
                    (Error "net::ERR_INTERNET_DISCONNECTED") ]) = [].
Proof.
  assert (H : events (main (sim page_navigation_fails)) =
              (Invoke "testAmazonSearchBar"
               :: before_navigation (mkChildProcess 4242) s1
               ++ [ Called (CUrl s1 "https://www.amazon.com")
                      (Threw (Error "net::ERR_INTERNET_DISCONNECTED"));
                    LogError "Test failed with error:"
                      (Error "net::ERR_INTERNET_DISCONNECTED") ])
              ++ Called (CDeleteSession s1) (Returned VUndefined)
              :: [ Log "Browser session closed";
                   Invoke "stopChromeDriver";
                   Called (CKill 4242) (Returned (VBool true));
                   Log "ChromeDriver stopped";
                   LogError "Test execution failed:"
                     (Error "net::ERR_INTERNET_DISCONNECTED");
                   Exit 1 ])
    by (vm_compute; reflexivity).
  split; [exact H|].
  exact (proj1 (the_session_close_is_last (sim page_navigation_fails) _ _ _ H eq_refl)).
Defined.

(** X9 on the run whose navigation and session close both fail. *)
Lemma the_reported_error_witness :
  In (Called (CDeleteSession s1) (Threw (Error "invalid session id")))
    (events (main (sim page_navigation_and_close_fail)))
  /\ exit_code (main (sim page_navigation_and_close_fail)) = 1
  /\ exists front,
       events (main (sim page_navigation_and_close_fail)) =
         front ++ [LogError "Test execution failed:" (Error "invalid session id"); Exit 1].
Proof.
  assert (H : In (Called (CDeleteSession s1) (Threw (Error "invalid session id")))
                (events (main (sim page_navigation_and_close_fail))))
    by (vm_compute; repeat (first [left; reflexivity | right])).
  split; [exact H|].
  exact (proj1 (the_reported_error (sim page_navigation_and_close_fail)) _ _ H).
Defined.

(** X11 on a page where only the last selector of the script matches. *)
Lemma a_passing_run_found_the_search_bar_witness :
  exit_code (main (sim (page_with ["#nav-search-input"]))) = 0
  /\ exists b s el,
       opened (events (main (sim (page_with ["#nav-search-input"])))) = [b]
       /\ In s selectors
       /\ In (Called (CQuery b s) (Returned (VElement el)))
            (events (main (sim (page_with ["#nav-search-input"]))))
       /\ In (Called (CIsExisting el) (Returned (VBool true)))
            (events (main (sim (page_with ["#nav-search-input"])))).
Proof.
  assert (H : exit_code (main (sim (page_with ["#nav-search-input"]))) = 0)
    by (vm_compute; reflexivity).
  split; [exact H|].
  exact (a_passing_run_found_the_search_bar (sim (page_with ["#nav-search-input"])) H).
Defined.

(** X12 on a machine where the session cannot be created. *)
Lemma session_open_failure_run_witness :
  chromedriver_start ["--port=9515"] (sim page_remote_fails)
    = (Normal (mkChildProcess 4242), mkSim page_remote_fails true)
  /\ wdio_remote options (timer_elapse 1000 (mkSim page_remote_fails true))
     = (Throw (Error "session not created"), mkSim page_remote_fails true)
  /\ exit_code (main (sim page_remote_fails)) = 1.
Proof.
  assert (H1 : chromedriver_start ["--port=9515"] (sim page_remote_fails)
               = (Normal (mkChildProcess 4242), mkSim page_remote_fails true))
    by reflexivity.
  assert (H2 : wdio_remote options (timer_elapse 1000 (mkSim page_remote_fails true))
               = (Throw (Error "session not created"), mkSim page_remote_fails true))
    by reflexivity.
  split; [exact H1|]. split; [exact H2|].
  exact (proj1 (session_open_failure_run _ _ _ _ _ H1 H2)).
Defined.

(** X13 on a machine where [remote] resolves to nothing. *)
Lemma missing_browser_run_witness :
  chromedriver_start ["--port=9515"] (sim page_remote_undefined)
    = (Normal (mkChildProcess 4242), mkSim page_remote_undefined true)
  /\ wdio_remote options (timer_elapse 1000 (mkSim page_remote_undefined true))
     = (Normal None, mkSim page_remote_undefined true)
  /\ exit_code (main (sim page_remote_undefined)) = 1.
Proof.
  assert (H1 : chromedriver_start ["--port=9515"] (sim page_remote_undefined)
               = (Normal (mkChildProcess 4242), mkSim page_remote_undefined true))
    by reflexivity.
  assert (H2 : wdio_remote options (timer_elapse 1000 (mkSim page_remote_undefined true))
               = (Normal None, mkSim page_remote_undefined true))
    by reflexivity.
  split; [exact H1|]. split; [exact H2|].
  exact (proj1 (missing_browser_run _ _ _ _ H1 H2)).
Defined.

(** X14 on the run whose navigation fails. *)
Lemma navigation_failure_run_witness :
  browser_url s1 "https://www.amazon.com" (mkSim page_navigation_fails true)
    = (Throw (Error "net::ERR_INTERNET_DISCONNECTED"), mkSim page_navigation_fails true)
  /\ browser_deleteSession s1 (mkSim page_navigation_fails true)
     = (Normal tt, mkSim page_navigation_fails true)
  /\ exit_code (main (sim page_navigation_fails)) = 1.
Proof.
  assert (H1 : chromedriver_start ["--port=9515"] (sim page_navigation_fails)
               = (Normal (mkChildProcess 4242), mkSim page_navigation_fails true))
    by reflexivity.
  assert (H2 : wdio_remote options (timer_elapse 1000 (mkSim page_navigation_fails true))
               = (Normal (Some s1), mkSim page_navigation_fails true))
    by reflexivity.
  assert (H3 : browser_url s1 "https://www.amazon.com" (mkSim page_navigation_fails true)
               = (Throw (Error "net::ERR_INTERNET_DISCONNECTED"),
                  mkSim page_navigation_fails true))
    by reflexivity.
  assert (H4 : browser_deleteSession s1 (mkSim page_navigation_fails true)
               = (Normal tt, mkSim page_navigation_fails true))
    by reflexivity.
  split; [exact H3|]. split; [exact H4|].
  exact (proj1 (navigation_failure_run _ _ _ _ _ _ _ _ H1 H2 H3 H4)).
Defined.

(** X15 on the run whose session cannot be created. *)
Lemma session_is_opened_only_after_the_server_started_witness :
  In (Called (CRemote options) (Threw (Error "session not created")))
    (events (main (sim page_remote_fails)))
  /\ exists p post,
       events (main (sim page_remote_fails)) =
         [ Invoke "testAmazonSearchBar";
           Log "Starting WebdriverIO test...";
           Invoke "startChromeDriver";
           Log "Starting ChromeDriver...";
           Called (CStart ["--port=9515"]) (Returned (VProcess p));
           Log "ChromeDriver started successfully on port 9515";
           Called (CSetTimeout 1000) (Returned VUndefined);
           Called (CRemote options) (Threw (Error "session not created")) ] ++ post
       /\ forall o' r', ~ In (Called (CRemote o') r') post.
Proof.
  assert (H : In (Called (CRemote options) (Threw (Error "session not created")))
                (events (main (sim page_remote_fails))))
    by (vm_compute; repeat (first [left; reflexivity | right])).
  split; [exact H|].
  exact (proj2 (session_is_opened_only_after_the_server_started
                  (sim page_remote_fails) _ _ H)).
Defined.

(** C2 as the specification states it fails on the page where [#a] and
    [#b] exist and scrolling to [#a] throws.  The first strategy yields an
    existing element: [#a] is acquired, its existence wait returns within
    the budget and [isExisting] answers true for it.  Yet a later strategy
    is attempted, and the element [find] returns is that of [#b]. *)
Lemma existing_element_passed_over_counterexample :
  attempt s1 "#a" (sim page_scroll_breaks)
    = (Abandoned (Error "javascript error: scrollIntoView"), sim page_scroll_breaks)
  /\ completion (query s1 "#a" (initial (sim page_scroll_breaks)))
     = Normal (ElementRef "#a")
  /\ completion (waitForExist (ElementRef "#a") 10000 (initial (sim page_scroll_breaks)))
     = Normal tt
  /\ completion (isExisting (ElementRef "#a") (initial (sim page_scroll_breaks)))
     = Normal true
  /\ completion (findSearchBar s1 ["#a"; "#b"] (initial (sim page_scroll_breaks)))
     = Normal (ElementRef "#b")
  /\ queried (events (findSearchBar s1 ["#a"; "#b"] (initial (sim page_scroll_breaks))))
     = ["#a"; "#b"].
Proof. repeat split; reflexivity. Qed.

(** C9 on a run that finds and inspects the search box and whose session
    close then fails. *)
Lemma successful_test_exits_1_when_the_close_throws_witness :
  existsb is_hold_returned (events (main (sim page_close_fails))) = true
  /\ In (Called (CDeleteSession s1) (Threw (Error "invalid session id")))
       (events (main (sim page_close_fails)))
  /\ completion (testBody (initial (sim page_close_fails))) = Normal tt
  /\ In (Log "✅ Test completed successfully!") (events (main (sim page_close_fails)))
  /\ exit_code (main (sim page_close_fails)) = 1
  /\ exits (events (main (sim page_close_fails))) = [1].
Proof.
  assert (H1 : existsb is_hold_returned (events (main (sim page_close_fails))) = true)
    by (vm_compute; reflexivity).
  assert (H2 : In (Called (CDeleteSession s1) (Threw (Error "invalid session id")))
                 (events (main (sim page_close_fails))))
    by (vm_compute; repeat (first [left; reflexivity | right])).
  split; [exact H1|]. split; [exact H2|].
  destruct (successful_test_exits_1_when_the_close_throws
              (sim page_close_fails) s1 _ H1 H2)
    as (Hb & _ & _ & Hline & Hone & Hx & _).
  split; [exact Hb|]. split; [exact Hline|]. split; [exact Hone | exact Hx].
Defined.
